(** * Maven Roasters sales dashboard (app.py): aggregation layer

    A shallow embedding of [src/app.py].  The program is a Streamlit
    script over a pandas data frame; the embedding has two layers:

    - [Pandas]: the data-frame operations the script calls ([groupby],
      [nunique], [mean], [isin], [nlargest], [sort_values], [reindex],
      [dt.normalize], [dt.day_name], [str[:2]]), modelled on lists of
      rows after their documented behaviour;
    - [App]: the functions of app.py ([load_data], [create_daily_metrics],
      [create_product_metrics], [main]) written over those operations,
      with [main] as a script in a small monad that records the widgets
      it renders and may stop early.

    Modelling conventions.
    - A table is a [list] of rows in file order.
    - A [datetime64[ns]] value is a [Z]: nanoseconds since 1970-01-01.
      A [datetime.date] is a [Z]: days since 1970-01-01.
    - Prices are exact rationals ([Qc]); the rounding of binary64
      arithmetic is outside this model.  A float cell that pandas would
      show as NaN is [None].
    - Every cell of the table is populated (no missing keys).
    - Strings are [string]s compared character by character. *)

From Stdlib Require Import ZArith QArith Qcanon List String Ascii Bool Lia.
From Stdlib Require Import Sorting.Sorted Sorting.Permutation.
Import ListNotations.

Set Implicit Arguments.

(* ===================================================================== *)
(** * Keys that can be sorted                                             *)
(* ===================================================================== *)

(** [groupby] and [sort_values] order their keys; a key type comes with a
    three-way comparison. *)
Class KeyOrd (K : Type) : Type := { kcmp : K -> K -> comparison }.

(** The comparison is a strict total order. *)
Class KeyOrdLaws (K : Type) `{KeyOrd K} : Prop := {
  kcmp_eq : forall a b, kcmp a b = Eq -> a = b;
  kcmp_refl : forall a, kcmp a a = Eq;
  kcmp_antisym : forall a b, kcmp b a = CompOpp (kcmp a b);
  kcmp_trans : forall a b c, kcmp a b = Lt -> kcmp b c = Lt -> kcmp a c = Lt
}.

Arguments KeyOrdLaws K {_}.

Definition klt {K} `{KeyOrd K} (a b : K) : Prop := kcmp a b = Lt.
Definition keqb {K} `{KeyOrd K} (a b : K) : bool :=
  match kcmp a b with Eq => true | _ => false end.
Definition kleb {K} `{KeyOrd K} (a b : K) : bool :=
  match kcmp a b with Gt => false | _ => true end.

(** Timestamps and dates by value, strings character by character. *)
#[global] Instance KeyOrd_Z : KeyOrd Z := {| kcmp := Z.compare |}.
#[global] Instance KeyOrd_string : KeyOrd string :=
  {| kcmp := String.compare |}.

(** Two key columns are ordered lexicographically, first column first. *)
Definition pair_cmp {A B} `{KeyOrd A} `{KeyOrd B} (p q : A * B) : comparison :=
  match kcmp (fst p) (fst q) with
  | Eq => kcmp (snd p) (snd q)
  | c => c
  end.

#[global] Instance KeyOrd_pair {A B} `{KeyOrd A} `{KeyOrd B}
  : KeyOrd (A * B) := {| kcmp := pair_cmp |}.

(* ===================================================================== *)
(** * The pandas operations used by app.py                                *)
(* ===================================================================== *)

Module Pandas.

Local Open Scope Z_scope.

(** ** Timestamps *)

Definition NS_PER_SECOND : Z := 1000000000.
Definition NS_PER_DAY : Z := 86400 * NS_PER_SECOND.

(** [pd.Timedelta(days=d)] and [pd.Timedelta(seconds=s)]. *)
Definition Timedelta_days (d : Z) : Z := d * NS_PER_DAY.
Definition Timedelta_seconds (s : Z) : Z := s * NS_PER_SECOND.

(** [pd.to_datetime(d)] for a [datetime.date]: midnight of that day. *)
Definition to_datetime (d : Z) : Z := d * NS_PER_DAY.

(** [Timestamp.date()]: the calendar day, time of day dropped. *)
Definition date (t : Z) : Z := t / NS_PER_DAY.

(** [Timestamp.normalize()] / [Series.dt.normalize()]: midnight of the
    same day. *)
Definition normalize (t : Z) : Z := t - t mod NS_PER_DAY.

Definition day_names : list string :=
  ["Monday"; "Tuesday"; "Wednesday"; "Thursday"; "Friday"; "Saturday";
   "Sunday"]%string.

(** [Timestamp.weekday()]: Monday is 0; 1970-01-01 was a Thursday. *)
Definition weekday (t : Z) : Z := (date t + 3) mod 7.

(** [Series.dt.day_name()]. *)
Definition day_name (t : Z) : string :=
  nth (Z.to_nat (weekday t)) day_names EmptyString.

(** ** Strings *)

(** [s[:n]]: the first [n] characters, or all of [s] when it is shorter. *)
Fixpoint str_slice_to (n : nat) (s : string) : string :=
  match n, s with
  | S n', String c s' => String c (str_slice_to n' s')
  | _, _ => EmptyString
  end.

(** ** Reductions of a column *)

(** [Series.sum()] of a float column and of an integer column. *)
Definition sum (l : list Qc) : Qc := fold_left Qcplus l (Q2Qc 0).
Definition sum_int (l : list Z) : Z := fold_left Z.add l 0.

(** [Series.count()]: the number of cells. *)
Definition count {A} (l : list A) : Z := Z.of_nat (List.length l).

(** [Series.mean()]: NaN on an empty column. *)
Definition mean (l : list Qc) : option Qc :=
  match l with
  | [] => None
  | _ => Some (sum l / Q2Qc (inject_Z (count l)))%Qc
  end.

(** [Series.min()] / [Series.max()] of a datetime column: [None] (NaT) on
    an empty column. *)
Definition col_min (l : list Z) : option Z :=
  match l with
  | [] => None
  | x :: l' => Some (fold_left Z.min l' x)
  end.

Definition col_max (l : list Z) : option Z :=
  match l with
  | [] => None
  | x :: l' => Some (fold_left Z.max l' x)
  end.

Section Keyed.
Context {K : Type} `{KeyOrd K}.

(** [x in values]. *)
Definition mem (x : K) (values : list K) : bool := existsb (keqb x) values.

(** [Series.unique()]: the distinct values in order of first
    appearance. *)
Fixpoint unique_from (seen : list K) (l : list K) : list K :=
  match l with
  | [] => []
  | x :: l' =>
      if mem x seen then unique_from seen l'
      else x :: unique_from (x :: seen) l'
  end.

Definition unique (l : list K) : list K := unique_from [] l.

(** [Series.nunique()]. *)
Definition nunique (l : list K) : Z := Z.of_nat (List.length (unique l)).

(** [Series.isin(values)], cell by cell. *)
Definition isin (values : list K) (x : K) : bool := mem x values.

(** The value a keyed series holds for label [k], if any. *)
Fixpoint lookup {V} (k : K) (s : list (K * V)) : option V :=
  match s with
  | [] => None
  | (k', v) :: s' => if keqb k k' then Some v else lookup k s'
  end.

Section Frames.
Context {R : Type}.

(** *** groupby *)

(** One pass over the rows; a row joins the group of its key, and a
    new key opens a group at its place in key order ([sort=True], the
    default).  Rows keep their order inside a group. *)
Fixpoint add_to_group (k : K) (r : R) (gs : list (K * list R))
  : list (K * list R) :=
  match gs with
  | [] => [(k, [r])]
  | (k', rs) :: gs' =>
      match kcmp k k' with
      | Lt => (k, [r]) :: gs
      | Eq => (k', rs ++ [r]) :: gs'
      | Gt => (k', rs) :: add_to_group k r gs'
      end
  end.

Definition groupby (key : R -> K) (df : list R) : list (K * list R) :=
  fold_left (fun gs r => add_to_group (key r) r gs) df [].

(** The rows collected so far under key [k]. *)
Definition rows_of (k : K) (gs : list (K * list R)) : list R :=
  match lookup k gs with Some rs => rs | None => [] end.


(** [.agg(...)] / a reduction after [groupby]: one output row per
    group. *)
Definition agg {B} (f : K -> list R -> B) (gs : list (K * list R))
  : list B :=
  map (fun g => f (fst g) (snd g)) gs.

(** [df.groupby(key)[column].mean()] *)
Definition groupby_mean (key : R -> K) (column : R -> Qc) (df : list R)
  : list (K * option Qc) :=
  agg (fun k rows => (k, mean (map column rows))) (groupby key df).
End Frames.

(** *** reindex *)

(** [Series.reindex(labels)]: one row per label, in the order of
    [labels]; a label the series does not have gets NaN. *)
Definition reindex (labels : list K) (s : list (K * option Qc))
  : list (K * option Qc) :=
  map (fun l => (l, match lookup l s with Some v => v | None => None end))
      labels.
End Keyed.

(** ** Sorting *)

Section Sorting.
Context {R : Type} (leb : R -> R -> bool).

(** A stable sort: a row is placed before the first row that is not
    smaller than it, so rows that compare equal keep their order. *)
Fixpoint insert_sorted (x : R) (l : list R) : list R :=
  match l with
  | [] => [x]
  | y :: l' => if leb x y then x :: l else y :: insert_sorted x l'
  end.

Fixpoint stable_sort (l : list R) : list R :=
  match l with
  | [] => []
  | x :: l' => insert_sorted x (stable_sort l')
  end.
End Sorting.

Definition Qcleb (a b : Qc) : bool :=
  match (a ?= b)%Qc with Gt => false | _ => true end.

(** [DataFrame.sort_values(by)], ascending, for a key column.  The
    script sorts a frame whose keys are distinct, where every sorting
    method gives the same frame ([group_means_any_sort] below). *)
Definition sort_values {R K} `{KeyOrd K} (by_ : R -> K) (df : list R)
  : list R :=
  stable_sort (fun a b => kleb (by_ a) (by_ b)) df.

(** [DataFrame.nlargest(n, column)] with the default [keep='first']: the
    [n] rows with the largest values, largest first; among equal values
    the rows that come first in the frame are taken first. *)
Definition nlargest {R} (n : nat) (column : R -> Qc) (df : list R) : list R :=
  firstn n (stable_sort (fun a b => Qcleb (column b) (column a)) df).

End Pandas.

(* ===================================================================== *)
(** * app.py                                                              *)
(* ===================================================================== *)

Module App.
Import Pandas.

Local Open Scope string_scope.
Local Open Scope Z_scope.

(** ** The table *)

(** One line of [Coffee Shop Sales.csv], with the columns the script
    reads.  [transaction_date] is held as the timestamp that
    [pd.to_datetime] parses it to. *)
Record CsvRow : Type := {
  csv_transaction_id : Z;
  csv_transaction_date : Z;
  csv_transaction_time : string;
  csv_transaction_qty : Z;
  csv_store_location : string;
  csv_unit_price : Qc;
  csv_product_category : string;
  csv_product_type : string
}.

(** One row of [df] after [load_data]. *)
Record Row : Type := {
  transaction_id : Z;
  transaction_date : Z;
  transaction_time : string;
  transaction_qty : Z;
  store_location : string;
  unit_price : Qc;
  product_category : string;
  product_type : string;
  total_price : Qc
}.

(** [df['total_price'] = df['transaction_qty'] * df['unit_price']] *)
Definition load_data (csv : list CsvRow) : list Row :=
  map (fun c =>
         {| transaction_id := csv_transaction_id c;
            transaction_date := csv_transaction_date c;
            transaction_time := csv_transaction_time c;
            transaction_qty := csv_transaction_qty c;
            store_location := csv_store_location c;
            unit_price := csv_unit_price c;
            product_category := csv_product_category c;
            product_type := csv_product_type c;
            total_price :=
              (Q2Qc (inject_Z (csv_transaction_qty c)) * csv_unit_price c)%Qc
         |}) csv.

(** [df.empty] *)
Definition empty {A} (df : list A) : bool :=
  match df with [] => true | _ => false end.

(** ** Grouped metrics *)

(** A row of a frame produced by
    [groupby(key).agg({'total_price', 'transaction_id',
    'transaction_qty'}).reset_index()]. *)
Record Metrics (K : Type) : Type := {
  group_key : K;
  agg_total_price : Qc;
  agg_transaction_id : Z;
  agg_transaction_qty : Z
}.

Arguments group_key {K} _.
Arguments agg_total_price {K} _.
Arguments agg_transaction_id {K} _.
Arguments agg_transaction_qty {K} _.

Definition create_daily_metrics (df : list Row) : list (Metrics Z) :=
  agg (fun k rows =>
         {| group_key := k;
            agg_total_price := sum (map total_price rows);
            agg_transaction_id := nunique (map transaction_id rows);
            agg_transaction_qty := sum_int (map transaction_qty rows) |})
      (groupby transaction_date df).

Definition create_product_metrics (df : list Row)
  : list (Metrics (string * string)) :=
  agg (fun k rows =>
         {| group_key := k;
            agg_total_price := sum (map total_price rows);
            agg_transaction_id := count (map transaction_id rows);
            agg_transaction_qty := sum_int (map transaction_qty rows) |})
      (groupby (fun r => (product_category r, product_type r)) df).

(** [store_metrics] of [main] (lines 163-167). *)
Definition store_metrics (filtered_df : list Row) : list (Metrics string) :=
  agg (fun k rows =>
         {| group_key := k;
            agg_total_price := sum (map total_price rows);
            agg_transaction_id := nunique (map transaction_id rows);
            agg_transaction_qty := sum_int (map transaction_qty rows) |})
      (groupby store_location filtered_df).

(** [hourly_data] of [main] (lines 193-196). *)
Definition hourly_data (filtered_df : list Row) : list (string * option Qc) :=
  sort_values fst
    (groupby_mean (fun r => str_slice_to 2 (transaction_time r)) total_price
                  filtered_df).

Definition day_order : list string :=
  ["Monday"; "Tuesday"; "Wednesday"; "Thursday"; "Friday"; "Saturday";
   "Sunday"].

(** [daily_patterns] of [main] (lines 216-219). *)
Definition daily_patterns (filtered_df : list Row)
  : list (string * option Qc) :=
  reindex day_order
    (groupby_mean (fun r => day_name (transaction_date r)) total_price
                  filtered_df).

(** [product_metrics.nlargest(10, 'total_price')] (line 125). *)
Definition top_products (filtered_df : list Row)
  : list (Metrics (string * string)) :=
  nlargest 10 agg_total_price (create_product_metrics filtered_df).

(** ** The filter (lines 55-70) *)

Definition start_date (date_range0 : Z) : Z := to_datetime date_range0.

Definition end_date (date_range1 : Z) : Z :=
  to_datetime date_range1 + Timedelta_days 1 - Timedelta_seconds 1.

Definition filter_mask (start_date end_date : Z)
    (selected_stores : list string) (r : Row) : bool :=
  (normalize (transaction_date r) >=? normalize start_date)
  && (normalize (transaction_date r) <=? normalize end_date)
  && isin selected_stores (store_location r).

Definition filtered_df (df : list Row) (date_range0 date_range1 : Z)
    (selected_stores : list string) : list Row :=
  filter (filter_mask (start_date date_range0) (end_date date_range1)
                      selected_stores) df.

(** ** What the page shows *)

Inductive metric_value : Type :=
| Money (v : option Qc)      (* formatted with [${...:,.2f}] *)
| Number (n : Z).            (* formatted with [{...:,}] *)

(** The figures handed to [st.plotly_chart], each with the frame it
    plots. *)
Inductive figure : Type :=
| fig_revenue (daily_sales : list (Metrics Z))
| fig_products (top : list (Metrics (string * string)))
| fig_categories (rows : list Row)
| fig_stores (store_metrics : list (Metrics string))
| fig_hourly (hourly_data : list (string * option Qc))
| fig_daily (daily_patterns : list (string * option Qc)).

(** The Streamlit calls of [main], in the order they are made. *)
Inductive widget : Type :=
| st_set_page_config (page_title : string)
| st_spinner (text : string)
| st_sidebar_header (text : string)
| st_sidebar_date_input (label : string) (value : list Z)
                        (min_value max_value : Z)
| st_sidebar_multiselect (label : string) (options default : list string)
| st_title (text : string)
| st_warning (text : string)
| st_metric (label : string) (value : metric_value)
| st_header (text : string)
| st_plotly_chart (fig : figure)
| st_dataframe (rows : list Row).

(** ** The script monad *)

(** Why a run of [main] ended before its last line. *)
Inductive stop : Type :=
| Return          (* a [return] statement *)
| IndexError      (* [date_range[i]] out of range *)
| NaT.            (* [min()] / [max()] of an empty column *)

(** A script renders widgets and either goes on with a value or stops. *)
Definition ui (A : Type) : Type := (list widget * (stop + A))%type.

Definition ret {A} (a : A) : ui A := ([], inr a).

Definition bind {A B} (m : ui A) (k : A -> ui B) : ui B :=
  match m with
  | (ws, inl s) => (ws, inl s)
  | (ws, inr a) => let (ws', r) := k a in ((ws ++ ws')%list, r)
  end.

Definition st (w : widget) : ui unit := ([w], inr tt).
Definition halt {A} (s : stop) : ui A := ([], inl s).

(** [l[i]] *)
Definition index {A} (l : list A) (i : nat) : ui A :=
  match nth_error l i with
  | Some x => ret x
  | None => halt IndexError
  end.

Definition timestamp (t : option Z) : ui Z :=
  match t with
  | Some x => ret x
  | None => halt NaT
  end.

Notation "x <- m ;; k" := (bind m (fun x => k))
  (at level 61, m at next level, right associativity).
Notation "m ;; k" := (bind m (fun _ => k))
  (at level 61, right associativity).

Definition rendered {A} (run : ui A) : list widget := fst run.

(** ** main *)

(** Lines 80-93: the four top-level metrics. *)
Definition top_level_metrics (filtered_df : list Row) : ui unit :=
  st (st_metric "Total Revenue"
        (Money (Some (sum (map total_price filtered_df))))) ;;
  st (st_metric "Total Transactions"
        (Number (nunique (map transaction_id filtered_df)))) ;;
  st (st_metric "Avg Transaction Value"
        (Money (mean (map total_price filtered_df)))) ;;
  st (st_metric "Total Items Sold"
        (Number (sum_int (map transaction_qty filtered_df)))).

(** Lines 95-239: the charts and the data set view.  The layout calls
    ([st.columns], [update_layout], [update_traces]) shape how a figure
    looks, not what it plots, and are left out. *)
Definition charts (filtered_df : list Row) : ui unit :=
  st (st_header "Sales Trends") ;;
  st (st_plotly_chart (fig_revenue (create_daily_metrics filtered_df))) ;;
  st (st_header "Product Performance") ;;
  st (st_plotly_chart (fig_products (top_products filtered_df))) ;;
  st (st_plotly_chart (fig_categories filtered_df)) ;;
  st (st_header "Store Performance") ;;
  st (st_plotly_chart (fig_stores (store_metrics filtered_df))) ;;
  st (st_header "Time-based Analysis") ;;
  st (st_plotly_chart (fig_hourly (hourly_data filtered_df))) ;;
  st (st_plotly_chart (fig_daily (daily_patterns filtered_df))) ;;
  st (st_dataframe filtered_df).

(** [main], with the file contents and the values the two sidebar
    widgets return ([date_range], [selected_stores]) as arguments.  The
    leading emoji of the page title is left out. *)
Definition main (csv : list CsvRow) (date_range : list Z)
    (selected_stores : list string) : ui unit :=
  st (st_set_page_config "Maven Roasters Dashboard") ;;
  st (st_spinner "Loading data...") ;;
  let df := load_data csv in
  if empty df then halt Return else
  st (st_sidebar_header "Filters") ;;
  min_ts <- timestamp (col_min (map transaction_date df)) ;;
  max_ts <- timestamp (col_max (map transaction_date df)) ;;
  let min_date := date min_ts in
  let max_date := date max_ts in
  st (st_sidebar_date_input "Select Date Range" [min_date; max_date]
        min_date max_date) ;;
  date_range0 <- index date_range 0 ;;
  date_range1 <- index date_range 1 ;;
  st (st_sidebar_multiselect "Select Stores"
        (unique (map store_location df))
        (unique (map store_location df))) ;;
  let filtered := filtered_df df date_range0 date_range1 selected_stores in
  st (st_title "Maven Roasters Sales Dashboard") ;;
  if empty filtered then
    st (st_warning "No data available for the selected filters.") ;;
    halt Return
  else
    top_level_metrics filtered ;;
    charts filtered.

(** The widget values of a first run, before the user touches the
    sidebar: the whole date span and every store. *)
Definition default_date_range (df : list Row) : list Z :=
  match col_min (map transaction_date df),
        col_max (map transaction_date df) with
  | Some lo, Some hi => [date lo; date hi]
  | _, _ => []
  end.

Definition default_stores (df : list Row) : list string :=
  unique (map store_location df).

End App.

(* ===================================================================== *)
(** * The specification's vocabulary                                      *)
(* ===================================================================== *)

(** The notions the specification uses to describe the views, written
    after its words and independently of the pandas operations above. *)
Module Spec.
Import Pandas App.

Local Open Scope Z_scope.

(** "sum of" a decimal column and of an integer column. *)
Definition total (l : list Qc) : Qc := fold_right Qcplus (Q2Qc 0) l.


(** "arithmetic mean over rows"; undefined when there is no row. *)
Definition average (l : list Qc) : option Qc :=
  match l with
  | [] => None
  | _ => Some (total l / Q2Qc (inject_Z (Z.of_nat (List.length l))))%Qc
  end.

(** Timestamp [t] falls on calendar day [d]. *)
Definition on_day (t d : Z) : Prop :=
  d * NS_PER_DAY <= t < (d + 1) * NS_PER_DAY.

(** Filter contract: the day of the row lies in [start, end_], both ends
    included, and the store is one of [store_set]. *)
Definition keeps (start end_ : Z) (store_set : list string) (r : Row)
  : Prop :=
  (exists d, on_day (transaction_date r) d /\ start <= d <= end_)
  /\ In (store_location r) store_set.

Definition keepsb (start end_ : Z) (store_set : list string) (r : Row)
  : bool :=
  (start <=? transaction_date r / NS_PER_DAY)
  && (transaction_date r / NS_PER_DAY <=? end_)
  && existsb (String.eqb (store_location r)) store_set.



(** The weekday names in calendar order. *)
Definition week : list string :=
  ["Monday"; "Tuesday"; "Wednesday"; "Thursday"; "Friday"; "Saturday";
   "Sunday"]%string.

(** The prices of the rows that fall on weekday [d]. *)
Definition prices_on_weekday (d : string) (df : list Row) : list Qc :=
  map total_price
      (filter (fun r => String.eqb (day_name (transaction_date r)) d) df).


(** Revenue order of the top-N view: larger revenue first; equal
    revenues in the order of the product table, which is ascending by
    (category, type). *)
Definition ranks_before {K} `{KeyOrd K} (a b : Metrics K) : Prop :=
  (agg_total_price b < agg_total_price a)%Qc
  \/ (agg_total_price a = agg_total_price b
      /\ klt (group_key a) (group_key b)).

(** "sorted strictly descending by revenue". *)
Definition strictly_descending {K} (l : list (Metrics K)) : Prop :=
  StronglySorted (fun a b => (agg_total_price b < agg_total_price a)%Qc) l.

(** "sorted descending by revenue", equal neighbours allowed. *)
Definition descending {K} (l : list (Metrics K)) : Prop :=
  StronglySorted (fun a b => (agg_total_price b <= agg_total_price a)%Qc) l.

(** The rows of a metrics frame whose revenue is [v]. *)
Definition with_revenue {K} (v : Qc) (l : list (Metrics K))
  : list (Metrics K) :=
  filter (fun m => Qc_eq_bool (agg_total_price m) v) l.

(** What the page shows before it looks at the selection: the page
    set-up and the two sidebar widgets with their defaults. *)
Definition preamble (df : list Row) (lo hi : Z) : list widget :=
  [ st_set_page_config "Maven Roasters Dashboard";
    st_spinner "Loading data...";
    st_sidebar_header "Filters";
    st_sidebar_date_input "Select Date Range" [lo; hi] lo hi;
    st_sidebar_multiselect "Select Stores" (default_stores df)
                           (default_stores df) ]%string.

(** The "no data for selection" notice. *)
Definition notice : widget :=
  st_warning "No data available for the selected filters.".

(** A widget that shows an aggregate or a chart. *)
Definition shows_data (w : widget) : bool :=
  match w with
  | st_metric _ _ | st_plotly_chart _ | st_dataframe _ => true
  | _ => false
  end.


End Spec.

(* ===================================================================== *)
(** * Sample tables                                                       *)
(* ===================================================================== *)

Module Examples.
Import Pandas App.

Local Open Scope string_scope.
Local Open Scope Z_scope.

Definition dec (n : Z) (d : positive) : Qc := Q2Qc (Qmake n d).

(** Days since 1970-01-01. *)
Definition d2023_01_01 : Z := 19358.     (* a Sunday *)
Definition d2023_01_02 : Z := 19359.

Definition line (txn : Z) (day : Z) (time : string) (qty : Z) (price : Qc)
    (store cat type : string) : CsvRow :=
  {| csv_transaction_id := txn;
     csv_transaction_date := to_datetime day;
     csv_transaction_time := time;
     csv_transaction_qty := qty;
     csv_store_location := store;
     csv_unit_price := price;
     csv_product_category := cat;
     csv_product_type := type |}.

(** The two rows of the specification's example. *)
Definition two_rows : list CsvRow :=
  [ line 1 d2023_01_01 "0930" 2 (dec 3 1) "A" "Coffee" "Latte";
    line 2 d2023_01_01 "1030" 1 (dec 5 1) "B" "Tea" "Chai" ].

(** One purchase of two line items and one of a single item. *)
Definition basket : list CsvRow :=
  [ line 7 d2023_01_01 "0815" 1 (dec 4 1) "A" "Coffee" "Latte";
    line 7 d2023_01_01 "0815" 1 (dec 2 1) "A" "Bakery" "Scone";
    line 8 d2023_01_02 "0900" 1 (dec 3 1) "A" "Tea" "Chai" ].

(** Two products with the same revenue; the tea is sold first. *)
Definition tie : list CsvRow :=
  [ line 1 d2023_01_01 "0930" 2 (dec 3 1) "A" "Tea" "Chai";
    line 2 d2023_01_01 "1030" 1 (dec 6 1) "B" "Coffee" "Latte" ].

(** A malformed time of one character next to a well-formed one. *)
Definition short_time : list CsvRow :=
  [ line 1 d2023_01_01 "9" 1 (dec 4 1) "A" "Coffee" "Latte";
    line 2 d2023_01_02 "09:30:00" 1 (dec 2 1) "A" "Tea" "Chai" ].

(** Placeholders for reading a row out of a frame by position. *)
Definition blank_row : Row :=
  {| transaction_id := 0; transaction_date := 0; transaction_time := "";
     transaction_qty := 0; store_location := ""; unit_price := Q2Qc 0;
     product_category := ""; product_type := ""; total_price := Q2Qc 0 |}.

Definition blank_metrics {K} (k : K) : Metrics K :=
  {| group_key := k; agg_total_price := Q2Qc 0;
     agg_transaction_id := 0; agg_transaction_qty := 0 |}.

End Examples.

(* ===================================================================== *)
(** * Further vocabulary and samples                                      *)
(* ===================================================================== *)

Module Further.
Import Pandas App.

Local Open Scope string_scope.
Local Open Scope Z_scope.


(** Two sales on 2023-01-01, stamped 09:00 and 17:00. *)
Definition morning_and_evening : list CsvRow :=
  [ {| csv_transaction_id := 1;
       csv_transaction_date :=
         to_datetime Examples.d2023_01_01 + 9 * 3600 * NS_PER_SECOND;
       csv_transaction_time := "09:00:00";
       csv_transaction_qty := 1;
       csv_store_location := "A";
       csv_unit_price := Examples.dec 4 1;
       csv_product_category := "Coffee";
       csv_product_type := "Latte" |};
    {| csv_transaction_id := 2;
       csv_transaction_date :=
         to_datetime Examples.d2023_01_01 + 17 * 3600 * NS_PER_SECOND;
       csv_transaction_time := "17:00:00";
       csv_transaction_qty := 1;
       csv_store_location := "A";
       csv_unit_price := Examples.dec 2 1;
       csv_product_category := "Tea";
       csv_product_type := "Chai" |} ].

End Further.

(* ===================================================================== *)
(** * The key orders are strict total orders                              *)
(* ===================================================================== *)

Lemma ascii_compare_refl (c : ascii) : Ascii.compare c c = Eq.
Proof. unfold Ascii.compare. apply N.compare_refl. Qed.

Lemma ascii_compare_trans (a b c : ascii) :
  Ascii.compare a b = Lt -> Ascii.compare b c = Lt -> Ascii.compare a c = Lt.
Proof.
  unfold Ascii.compare. rewrite !N.compare_lt_iff. apply N.lt_trans.
Qed.

Lemma string_compare_refl (s : string) : String.compare s s = Eq.
Proof.
  induction s as [|c s IH]; simpl; [reflexivity|].
  now rewrite ascii_compare_refl.
Qed.

Lemma string_compare_trans (a b c : string) :
  String.compare a b = Lt -> String.compare b c = Lt -> String.compare a c = Lt.
Proof.
  revert b c. induction a as [|x a IH]; intros [|y b] [|z c]; simpl;
    try discriminate; auto.
  destruct (Ascii.compare x y) eqn:Exy; try discriminate;
    destruct (Ascii.compare y z) eqn:Eyz; try discriminate; intros H1 H2.
  - apply Ascii.compare_eq_iff in Exy, Eyz. subst.
    rewrite ascii_compare_refl. eauto.
  - apply Ascii.compare_eq_iff in Exy. subst. now rewrite Eyz.
  - apply Ascii.compare_eq_iff in Eyz. subst. now rewrite Exy.
  - now rewrite (ascii_compare_trans _ _ _ Exy Eyz).
Qed.

#[global] Instance KeyOrdLaws_Z : KeyOrdLaws Z.
Proof.
  split; simpl.
  - intros a b. apply Z.compare_eq.
  - apply Z.compare_refl.
  - intros a b. apply Z.compare_antisym.
  - intros a b c. rewrite !Z.compare_lt_iff. apply Z.lt_trans.
Qed.

#[global] Instance KeyOrdLaws_string : KeyOrdLaws string.
Proof.
  split; simpl.
  - apply String.compare_eq_iff.
  - apply string_compare_refl.
  - intros a b. apply String.compare_antisym.
  - apply string_compare_trans.
Qed.

#[global] Instance KeyOrdLaws_pair {A B} `{KeyOrdLaws A} `{KeyOrdLaws B}
  : KeyOrdLaws (A * B).
Proof.
  split; simpl.
  - intros [a1 b1] [a2 b2]. unfold pair_cmp. simpl.
    destruct (kcmp a1 a2) eqn:E; try discriminate.
    intros E2. apply kcmp_eq in E. apply kcmp_eq in E2. now subst.
  - intros [a b]. unfold pair_cmp. simpl. now rewrite !kcmp_refl.
  - intros [a1 b1] [a2 b2]. unfold pair_cmp. simpl.
    rewrite (kcmp_antisym a1 a2).
    destruct (kcmp a1 a2); simpl; auto using kcmp_antisym.
  - intros [a1 b1] [a2 b2] [a3 b3]. unfold pair_cmp. simpl.
    destruct (kcmp a1 a2) eqn:E12; try discriminate;
      destruct (kcmp a2 a3) eqn:E23; try discriminate; intros Hb12 Hb23.
    + apply kcmp_eq in E12, E23. subst. rewrite kcmp_refl.
      eauto using kcmp_trans.
    + apply kcmp_eq in E12. subst. now rewrite E23.
    + apply kcmp_eq in E23. subst. now rewrite E12.
    + now rewrite (kcmp_trans _ _ _ E12 E23).
Qed.

(* ===================================================================== *)
(** * Facts about the pandas operations                                   *)
(* ===================================================================== *)

Import Pandas App.

Section SumFacts.

Lemma fold_Qcplus_acc (l : list Qc) (a : Qc) :
  fold_left Qcplus l a = (a + fold_left Qcplus l (Q2Qc 0))%Qc.
Proof.
  revert a. induction l as [|x l IH]; intros a; simpl.
  - now rewrite Qcplus_0_r.
  - rewrite (IH (a + x)%Qc), (IH (Q2Qc 0 + x)%Qc). ring.
Qed.

Lemma sum_nil : sum [] = Q2Qc 0.
Proof. reflexivity. Qed.

Lemma sum_cons (x : Qc) (l : list Qc) : sum (x :: l) = (x + sum l)%Qc.
Proof.
  unfold sum. simpl. rewrite fold_Qcplus_acc. ring.
Qed.


Lemma sum_total (l : list Qc) : sum l = Spec.total l.
Proof.
  induction l as [|x l IH]; [reflexivity|].
  rewrite sum_cons, IH. reflexivity.
Qed.




Lemma mean_average (l : list Qc) : mean l = Spec.average l.
Proof.
  destruct l as [|x l]; [reflexivity|].
  unfold mean, Spec.average, count. now rewrite sum_total.
Qed.

End SumFacts.

Section KeyFacts.
Context {K : Type} `{KeyOrdLaws K}.

Lemma keqb_eq (a b : K) : keqb a b = true <-> a = b.
Proof.
  unfold keqb. split.
  - destruct (kcmp a b) eqn:E; try discriminate. intros _.
    now apply kcmp_eq.
  - intros ->. now rewrite kcmp_refl.
Qed.

Lemma keqb_refl (a : K) : keqb a a = true.
Proof. now apply keqb_eq. Qed.

Lemma keqb_sym (a b : K) : keqb a b = keqb b a.
Proof.
  destruct (keqb a b) eqn:E1, (keqb b a) eqn:E2; auto.
  - apply keqb_eq in E1. subst. now rewrite keqb_refl in E2.
  - apply keqb_eq in E2. subst. now rewrite keqb_refl in E1.
Qed.

Lemma klt_irrefl (a : K) : ~ klt a a.
Proof. unfold klt. now rewrite kcmp_refl. Qed.

Lemma klt_trans (a b c : K) : klt a b -> klt b c -> klt a c.
Proof. apply kcmp_trans. Qed.

Lemma kcmp_Gt_lt (a b : K) : kcmp a b = Gt -> klt b a.
Proof. unfold klt. intros E. now rewrite (kcmp_antisym a b), E. Qed.

Lemma klt_neq (a b : K) : klt a b -> keqb a b = false.
Proof. unfold klt, keqb. now intros ->. Qed.

Lemma klt_neq' (a b : K) : klt a b -> keqb b a = false.
Proof. intros E. rewrite keqb_sym. now apply klt_neq. Qed.

Lemma mem_In (x : K) (l : list K) : mem x l = true <-> In x l.
Proof.
  unfold mem. rewrite existsb_exists. split.
  - intros (y & Hy & E). apply keqb_eq in E. now subst.
  - intros Hx. exists x. split; [assumption | apply keqb_refl].
Qed.

Lemma mem_false (x : K) (l : list K) : mem x l = false <-> ~ In x l.
Proof.
  rewrite <- mem_In. destruct (mem x l); split; congruence.
Qed.

(** *** unique *)

Lemma unique_from_In (seen l : list K) (x : K) :
  In x (unique_from seen l) <-> In x l /\ ~ In x seen.
Proof.
  revert seen. induction l as [|y l IH]; intros seen; simpl.
  - tauto.
  - destruct (mem y seen) eqn:E.
    + apply mem_In in E. rewrite IH. split.
      * tauto.
      * intros [[-> | Hx] Hn]; [contradiction | tauto].
    + apply mem_false in E. simpl. rewrite IH. simpl. split.
      * intros [-> | [Hx Hn]]; [tauto|]. split; [tauto|]. intros Hs.
        apply Hn. now right.
      * intros [[-> | Hx] Hn]; [now left|].
        destruct (keqb y x) eqn:Eyx.
        -- apply keqb_eq in Eyx. now left.
        -- right. split; [assumption|]. intros [-> | Hs]; [|tauto].
           now rewrite keqb_refl in Eyx.
Qed.

Lemma unique_from_NoDup (seen l : list K) : NoDup (unique_from seen l).
Proof.
  revert seen. induction l as [|y l IH]; intros seen; simpl.
  - constructor.
  - destruct (mem y seen); [apply IH|].
    constructor; [|apply IH].
    rewrite unique_from_In. intros [_ Hn]. apply Hn. now left.
Qed.

Lemma unique_In (l : list K) (x : K) : In x (unique l) <-> In x l.
Proof. unfold unique. rewrite unique_from_In. simpl. tauto. Qed.

Lemma unique_NoDup (l : list K) : NoDup (unique l).
Proof. apply unique_from_NoDup. Qed.

Lemma isin_In (values : list K) (x : K) :
  isin values x = true <-> In x values.
Proof. apply mem_In. Qed.

(** Two duplicate-free lists with the same elements have the same
    length, so [nunique] is the number of distinct values however they
    are listed. *)
Lemma nunique_spec (l d : list K) :
  NoDup d -> (forall x, In x d <-> In x l) ->
  nunique l = Z.of_nat (List.length d).
Proof.
  intros Hd Hin. unfold nunique. f_equal.
  apply Permutation_length, NoDup_Permutation.
  - apply unique_NoDup.
  - assumption.
  - intros x. rewrite unique_In, Hin. tauto.
Qed.

(** *** sorted association lists *)

Lemma sorted_keys_NoDup (ks : list K) : StronglySorted klt ks -> NoDup ks.
Proof.
  induction 1 as [|k ks Hs IH Hall]; constructor; [|assumption].
  intros Hin. rewrite Forall_forall in Hall.
  exact (klt_irrefl (Hall _ Hin)).
Qed.

Lemma lookup_not_In {V} (k : K) (s : list (K * V)) :
  ~ In k (map fst s) -> lookup k s = None.
Proof.
  induction s as [|[k' v] s IH]; simpl; [reflexivity|]. intros Hn.
  destruct (keqb k k') eqn:E.
  - apply keqb_eq in E. subst. tauto.
  - apply IH. tauto.
Qed.

Lemma lookup_Some_In {V} (k : K) (v : V) (s : list (K * V)) :
  lookup k s = Some v -> In (k, v) s.
Proof.
  induction s as [|[k' v'] s IH]; simpl; [discriminate|].
  destruct (keqb k k') eqn:E.
  - apply keqb_eq in E. subst. intros [= ->]. now left.
  - intros Hl. right. now apply IH.
Qed.

Lemma In_lookup {V} (k : K) (v : V) (s : list (K * V)) :
  NoDup (map fst s) -> In (k, v) s -> lookup k s = Some v.
Proof.
  induction s as [|[k' v'] s IH]; simpl; [tauto|].
  intros Hnd [[= -> ->] | Hin].
  - now rewrite keqb_refl.
  - inversion Hnd as [|? ? Hk Hnd']; subst.
    destruct (keqb k k') eqn:E.
    + apply keqb_eq in E. subst. exfalso. apply Hk.
      change k' with (fst (k', v)). now apply in_map.
    + now apply IH.
Qed.

Lemma lookup_map_snd {V W} (f : K -> V -> W) (k : K) (s : list (K * V)) :
  lookup k (map (fun g => (fst g, f (fst g) (snd g))) s)
  = option_map (f k) (lookup k s).
Proof.
  induction s as [|[k' v] s IH]; simpl; [reflexivity|].
  destruct (keqb k k') eqn:E; [|exact IH].
  apply keqb_eq in E. now subst.
Qed.

End KeyFacts.

#[local] Arguments sum : simpl never.
#[local] Arguments sum_int : simpl never.

Section GroupbyFacts.
Context {K : Type} `{KeyOrdLaws K} {R : Type}.
Variable key : R -> K.

Local Abbreviation keys gs := (map fst gs).

Lemma add_to_group_keys (k : K) (r : R) (gs : list (K * list R)) (k' : K) :
  In k' (keys (add_to_group k r gs)) <-> k' = k \/ In k' (keys gs).
Proof.
  induction gs as [|[k0 rs] gs IH]; simpl.
  - intuition.
  - destruct (kcmp k k0) eqn:E; simpl.
    + apply kcmp_eq in E. subst. intuition.
    + intuition.
    + rewrite IH. intuition.
Qed.

Lemma add_to_group_sorted (k : K) (r : R) (gs : list (K * list R)) :
  StronglySorted klt (keys gs) ->
  StronglySorted klt (keys (add_to_group k r gs)).
Proof.
  induction gs as [|[k0 rs] gs IH]; simpl; intros Hs.
  - repeat constructor.
  - inversion Hs as [|? ? Hs' Hall]; subst.
    destruct (kcmp k k0) eqn:E; simpl.
    + assumption.
    + constructor; [assumption|]. constructor; [assumption|].
      eapply Forall_impl; [|exact Hall]. intros a. now apply klt_trans.
    + constructor; [now apply IH|].
      rewrite Forall_forall in *. intros a Ha.
      apply add_to_group_keys in Ha. destruct Ha as [-> | Ha].
      * now apply kcmp_Gt_lt.
      * now apply Hall.
Qed.

Lemma lookup_add_to_group (k : K) (r : R) (gs : list (K * list R)) (k' : K) :
  StronglySorted klt (keys gs) ->
  lookup k' (add_to_group k r gs)
  = if keqb k' k then Some (rows_of k gs ++ [r]) else lookup k' gs.
Proof.
  unfold rows_of.
  induction gs as [|[k0 rs] gs IH]; simpl; intros Hs.
  - reflexivity.
  - inversion Hs as [|? ? Hs' Hall]; subst.
    destruct (kcmp k k0) eqn:E; simpl.
    + apply kcmp_eq in E. subst. rewrite keqb_refl.
      now destruct (keqb k' k0).
    + rewrite (klt_neq E). rewrite (@lookup_not_In _ _ _ _ k gs).
      * reflexivity.
      * intros Hin. rewrite Forall_forall in Hall.
        exact (klt_irrefl (klt_trans E (Hall _ Hin))).
    + assert (Ek : keqb k k0 = false) by (apply klt_neq'; now apply kcmp_Gt_lt).
      rewrite Ek, (IH Hs').
      destruct (keqb k' k0) eqn:E0; [|reflexivity].
      apply keqb_eq in E0. subst. rewrite keqb_sym. now rewrite Ek.
Qed.

Lemma groupby_snoc (df : list R) (r : R) :
  groupby key (df ++ [r]) = add_to_group (key r) r (groupby key df).
Proof. unfold groupby. now rewrite fold_left_app. Qed.

Lemma groupby_sorted (df : list R) :
  StronglySorted klt (keys (groupby key df)).
Proof.
  induction df as [|r df IH] using rev_ind.
  - constructor.
  - rewrite groupby_snoc. now apply add_to_group_sorted.
Qed.

Lemma groupby_keys_NoDup (df : list R) : NoDup (keys (groupby key df)).
Proof. apply sorted_keys_NoDup, groupby_sorted. Qed.

(** The group of key [k] is the rows with that key, in table order; a
    key without rows has no group. *)
Lemma groupby_lookup (df : list R) (k : K) :
  lookup k (groupby key df)
  = match filter (fun r => keqb (key r) k) df with
    | [] => None
    | rs => Some rs
    end.
Proof.
  induction df as [|r df IH] using rev_ind.
  - reflexivity.
  - rewrite groupby_snoc, lookup_add_to_group by apply groupby_sorted.
    rewrite filter_app. simpl. rewrite (keqb_sym (key r) k).
    destruct (keqb k (key r)) eqn:E.
    + apply keqb_eq in E. subst. unfold rows_of. rewrite IH.
      destruct (filter _ df) as [|x l]; reflexivity.
    + rewrite IH, app_nil_r. reflexivity.
Qed.

Lemma groupby_In (df : list R) (k : K) (rs : list R) :
  In (k, rs) (groupby key df) ->
  rs = filter (fun r => keqb (key r) k) df /\ rs <> [].
Proof.
  intros Hin. apply In_lookup in Hin; [|apply groupby_keys_NoDup].
  rewrite groupby_lookup in Hin.
  destruct (filter _ df) as [|x l]; [discriminate|].
  injection Hin as <-. split; [reflexivity | discriminate].
Qed.

Lemma groupby_keys (df : list R) (k : K) :
  In k (keys (groupby key df)) <-> exists r, In r df /\ key r = k.
Proof.
  split.
  - intros Hin. apply in_map_iff in Hin. destruct Hin as ([k' rs] & <- & Hin).
    apply groupby_In in Hin. destruct Hin as [-> Hne]. simpl.
    destruct (filter _ df) as [|r l] eqn:E; [congruence|].
    assert (Hr : In r (filter (fun r => keqb (key r) k') df))
      by (rewrite E; now left).
    apply filter_In in Hr. destruct Hr as [Hr Hk]. apply keqb_eq in Hk.
    now exists r.
  - intros (r & Hr & <-).
    destruct (lookup (key r) (groupby key df)) as [rs|] eqn:E.
    + apply lookup_Some_In in E. change (key r) with (fst (key r, rs)).
      now apply in_map.
    + rewrite groupby_lookup in E.
      destruct (filter _ df) as [|x l] eqn:E'; [|discriminate].
      assert (Hr' : In r (filter (fun r0 => keqb (key r0) (key r)) df)).
      { apply filter_In. split; [assumption | apply keqb_refl]. }
      rewrite E' in Hr'. destruct Hr'.
Qed.

(** The number of groups is the number of distinct keys. *)
Lemma groupby_length (df : list R) :
  Z.of_nat (List.length (groupby key df)) = nunique (map key df).
Proof.
  symmetry. rewrite <- (length_map fst). apply nunique_spec.
  - apply groupby_keys_NoDup.
  - intros k. rewrite groupby_keys, in_map_iff. split.
    + intros (r & Hr & E). now exists r.
    + intros (r & E & Hr). now exists r.
Qed.

(** Grouping keeps every row exactly once: a per-group sum, summed
    over the groups, is the sum over the table. *)
Section Totals.
Variable f : R -> Qc.


End Totals.

End GroupbyFacts.

Section SortFacts.
Context {R : Type}.

Lemma insert_sorted_perm (leb : R -> R -> bool) (x : R) (l : list R) :
  Permutation (insert_sorted leb x l) (x :: l).
Proof.
  induction l as [|y l IH]; simpl; [reflexivity|].
  destruct (leb x y); [reflexivity|].
  rewrite IH. apply perm_swap.
Qed.

Lemma stable_sort_perm (leb : R -> R -> bool) (l : list R) :
  Permutation (stable_sort leb l) l.
Proof.
  induction l as [|x l IH]; simpl; [reflexivity|].
  rewrite insert_sorted_perm. now constructor.
Qed.

Lemma stable_sort_In (leb : R -> R -> bool) (l : list R) (x : R) :
  In x (stable_sort leb l) <-> In x l.
Proof.
  split; apply Permutation_in;
    [|symmetry]; apply stable_sort_perm.
Qed.

(** Sorting a frame that is already in order changes nothing. *)
Lemma stable_sort_sorted (leb : R -> R -> bool) (l : list R) :
  StronglySorted (fun a b => leb a b = true) l -> stable_sort leb l = l.
Proof.
  induction 1 as [|x l Hs IH Hall]; simpl; [reflexivity|].
  rewrite IH. destruct l as [|y l]; simpl; [reflexivity|].
  inversion Hall as [|? ? Hxy _]; subst. now rewrite Hxy.
Qed.

(** Rows with the same sort value keep their order (stability): for a
    class [p] of rows that are pairwise not greater than one another,
    sorting does not reorder the rows of [p]. *)
Lemma insert_sorted_filter (leb : R -> R -> bool) (p : R -> bool)
    (x : R) (l : list R) :
  (forall a b, p a = true -> p b = true -> leb a b = true) ->
  filter p (insert_sorted leb x l) = filter p (x :: l).
Proof.
  intros Hp. induction l as [|y l IH]; simpl; [reflexivity|].
  destruct (leb x y) eqn:E; simpl; [reflexivity|].
  rewrite IH. simpl.
  destruct (p x) eqn:Ex, (p y) eqn:Ey; try reflexivity.
  rewrite (Hp x y Ex Ey) in E. discriminate.
Qed.

Lemma stable_sort_filter (leb : R -> R -> bool) (p : R -> bool)
    (l : list R) :
  (forall a b, p a = true -> p b = true -> leb a b = true) ->
  filter p (stable_sort leb l) = filter p l.
Proof.
  intros Hp. induction l as [|x l IH]; simpl; [reflexivity|].
  rewrite (insert_sorted_filter _ _ _ _ Hp). simpl. now rewrite IH.
Qed.

Lemma StronglySorted_app_l (rel : R -> R -> Prop) (l1 l2 : list R) :
  StronglySorted rel (l1 ++ l2) -> StronglySorted rel l1.
Proof.
  induction l1 as [|x l1 IH]; simpl; intros Hs; [constructor|].
  inversion Hs as [|? ? Hs' Hall]; subst.
  constructor; [now apply IH|].
  apply Forall_app in Hall. tauto.
Qed.

Lemma StronglySorted_app_cross (rel : R -> R -> Prop) (l1 l2 : list R)
    (a b : R) :
  StronglySorted rel (l1 ++ l2) -> In a l1 -> In b l2 -> rel a b.
Proof.
  induction l1 as [|x l1 IH]; simpl; intros Hs Ha Hb; [tauto|].
  inversion Hs as [|? ? Hs' Hall]; subst.
  destruct Ha as [-> | Ha]; [|now apply IH].
  rewrite Forall_forall in Hall. apply Hall, in_or_app. now right.
Qed.

End SortFacts.

Lemma Qcleb_le (a b : Qc) : Qcleb a b = true <-> (a <= b)%Qc.
Proof.
  unfold Qcleb. rewrite Qcle_alt.
  destruct (a ?= b)%Qc; split; congruence.
Qed.

Lemma Qcleb_gt (a b : Qc) : Qcleb a b = false <-> (b < a)%Qc.
Proof.
  unfold Qcleb. rewrite Qclt_alt. unfold Qccompare.
  rewrite <- (Qcompare_antisym a b).
  destruct (a ?= b)%Q; simpl; split; congruence.
Qed.

Section TimeFacts.
Local Open Scope Z_scope.

Lemma NS_PER_DAY_pos : 0 < NS_PER_DAY.
Proof. reflexivity. Qed.

Lemma normalize_date (t : Z) : normalize t = date t * NS_PER_DAY.
Proof.
  unfold normalize, date.
  pose proof (Z.div_mod t NS_PER_DAY) as E.
  pose proof NS_PER_DAY_pos. lia.
Qed.

Lemma date_to_datetime (d : Z) : date (to_datetime d) = d.
Proof.
  unfold date, to_datetime. apply Z.div_mul.
  pose proof NS_PER_DAY_pos. lia.
Qed.

Lemma date_start_date (d : Z) : date (start_date d) = d.
Proof. apply date_to_datetime. Qed.

(** One second before the next midnight is still the same day. *)
Lemma date_end_date (d : Z) : date (end_date d) = d.
Proof.
  unfold date, end_date, to_datetime, Timedelta_days, Timedelta_seconds.
  replace (d * NS_PER_DAY + 1 * NS_PER_DAY - 1 * NS_PER_SECOND)
    with (d * NS_PER_DAY + (NS_PER_DAY - NS_PER_SECOND)) by ring.
  rewrite Z.div_add_l by (pose proof NS_PER_DAY_pos; lia).
  rewrite (Z.div_small (NS_PER_DAY - NS_PER_SECOND)); [lia|].
  split; [discriminate | reflexivity].
Qed.

Lemma date_mono (t u : Z) : t <= u -> date t <= date u.
Proof.
  intros Htu. unfold date. apply Z.div_le_mono; [apply NS_PER_DAY_pos | exact Htu].
Qed.

Lemma on_day_date (t d : Z) : Spec.on_day t d <-> d = date t.
Proof.
  unfold Spec.on_day, date. pose proof NS_PER_DAY_pos as HD.
  set (D := NS_PER_DAY) in *. clearbody D. split.
  - intros [Hlo Hhi]. apply Z.div_unique with (r := t - d * D); lia.
  - intros ->. pose proof (Z.div_mod t D). pose proof (Z.mod_pos_bound t D HD).
    nia.
Qed.

Lemma normalize_le (t u : Z) :
  (normalize t <=? normalize u) = (date t <=? date u).
Proof.
  rewrite !normalize_date. pose proof NS_PER_DAY_pos as HD.
  set (D := NS_PER_DAY) in *. clearbody D.
  destruct (date t <=? date u) eqn:E.
  - apply Z.leb_le in E. apply Z.leb_le. nia.
  - apply Z.leb_gt in E. apply Z.leb_gt. nia.
Qed.

Lemma keqb_string (a b : string) : keqb a b = String.eqb a b.
Proof.
  destruct (String.eqb a b) eqn:E.
  - apply String.eqb_eq in E. subst. apply keqb_refl.
  - destruct (keqb a b) eqn:E'; [|reflexivity].
    apply keqb_eq in E'. subst. now rewrite String.eqb_refl in E.
Qed.

Lemma isin_existsb (values : list string) (x : string) :
  isin values x = existsb (String.eqb x) values.
Proof.
  unfold isin, mem. induction values as [|v values IH]; simpl; [reflexivity|].
  now rewrite keqb_string, IH.
Qed.

(** The mask of lines 66-70 is the day-granular, inclusive range test
    and the store membership test. *)
Lemma filter_mask_keepsb (s e : Z) (stores : list string) (r : Row) :
  filter_mask (start_date s) (end_date e) stores r
  = Spec.keepsb s e stores r.
Proof.
  unfold filter_mask, Spec.keepsb.
  rewrite Z.geb_leb, !normalize_le, date_start_date, date_end_date, isin_existsb.
  reflexivity.
Qed.

Lemma keepsb_keeps (s e : Z) (stores : list string) (r : Row) :
  Spec.keepsb s e stores r = true <-> Spec.keeps s e stores r.
Proof.
  unfold Spec.keepsb, Spec.keeps.
  rewrite !andb_true_iff, !Z.leb_le, existsb_exists.
  fold (date (transaction_date r)). split.
  - intros [[Hs He] (x & Hx & E)]. apply String.eqb_eq in E. subst x.
    split; [|assumption].
    exists (date (transaction_date r)). rewrite on_day_date. auto.
  - intros [(d & Hd & Hs & He) Hin]. apply on_day_date in Hd. subst d.
    repeat split; try assumption.
    exists (store_location r). split; [assumption | apply String.eqb_refl].
Qed.

End TimeFacts.

(* ===================================================================== *)
(** * The filter                                                          *)
(* ===================================================================== *)

Section FilterProps.
Local Open Scope Z_scope.

Lemma filter_all {A} (p : A -> bool) (l : list A) :
  (forall x, In x l -> p x = true) -> filter p l = l.
Proof.
  induction l as [|x l IH]; simpl; intros Hp; [reflexivity|].
  rewrite (Hp x) by now left. f_equal. apply IH. intros y Hy.
  apply Hp. now right.
Qed.

Lemma fold_min_le (l : list Z) (a : Z) :
  fold_left Z.min l a <= a /\ forall x, In x l -> fold_left Z.min l a <= x.
Proof.
  revert a. induction l as [|y l IH]; intros a; simpl.
  - split; [lia | tauto].
  - destruct (IH (Z.min a y)) as [H1 H2]. split; [lia|].
    intros x [<- | Hx]; [lia | now apply H2].
Qed.

Lemma fold_max_ge (l : list Z) (a : Z) :
  a <= fold_left Z.max l a /\ forall x, In x l -> x <= fold_left Z.max l a.
Proof.
  revert a. induction l as [|y l IH]; intros a; simpl.
  - split; [lia | tauto].
  - destruct (IH (Z.max a y)) as [H1 H2]. split; [lia|].
    intros x [<- | Hx]; [lia | now apply H2].
Qed.

Lemma col_min_le (l : list Z) (m x : Z) :
  col_min l = Some m -> In x l -> m <= x.
Proof.
  destruct l as [|a l]; simpl; [discriminate|]. intros [= <-].
  destruct (fold_min_le l a) as [H1 H2]. intros [<- | Hx]; auto.
Qed.

Lemma col_max_ge (l : list Z) (m x : Z) :
  col_max l = Some m -> In x l -> x <= m.
Proof.
  destruct l as [|a l]; simpl; [discriminate|]. intros [= <-].
  destruct (fold_max_ge l a) as [H1 H2]. intros [<- | Hx]; auto.
Qed.

End FilterProps.

(** C3: the filter keeps exactly the rows whose transaction date, cut to
    its calendar day, lies between the start and end dates (both
    included) and whose store is in the store set; the kept rows stay in
    table order. *)
Theorem C3_filter_keeps_exactly (df : list Row) (s e : Z)
    (stores : list string) :
  filtered_df df s e stores = filter (Spec.keepsb s e stores) df
  /\ forall r, In r (filtered_df df s e stores)
               <-> In r df /\ Spec.keeps s e stores r.
Proof.
  assert (E : filtered_df df s e stores = filter (Spec.keepsb s e stores) df).
  { unfold filtered_df. apply filter_ext. intros r.
    apply filter_mask_keepsb. }
  split; [exact E|]. intros r.
  rewrite E, filter_In, keepsb_keeps. reflexivity.
Qed.

(** C8: with an empty store set the filter returns the empty table,
    whatever the table and the date range. *)
Theorem C8_empty_store_set (df : list Row) (s e : Z) :
  filtered_df df s e [] = [].
Proof.
  unfold filtered_df, filter_mask.
  induction df as [|r df IH]; simpl; [reflexivity|].
  rewrite andb_false_r. exact IH.
Qed.

(** C10: on a non-empty table the widgets' default values (first to last
    day of the table, every store of the table) make the filter return
    the table unchanged. *)
Theorem C10_default_filter_identity (df : list Row) :
  df <> [] ->
  exists lo hi,
    default_date_range df = [lo; hi]
    /\ filtered_df df lo hi (default_stores df) = df.
Proof.
  intros Hne. unfold default_date_range.
  destruct (col_min (map transaction_date df)) as [tmin|] eqn:Emin;
    [|destruct df; [congruence | discriminate]].
  destruct (col_max (map transaction_date df)) as [tmax|] eqn:Emax;
    [|destruct df; [congruence | discriminate]].
  exists (date tmin), (date tmax). split; [reflexivity|].
  unfold filtered_df. apply filter_all. intros r Hr.
  rewrite filter_mask_keepsb. apply keepsb_keeps. split.
  - exists (date (transaction_date r)). split; [now apply on_day_date|].
    assert (Ht : In (transaction_date r) (map transaction_date df))
      by now apply in_map.
    split; apply date_mono.
    + eapply col_min_le; eassumption.
    + eapply col_max_ge; eassumption.
  - unfold default_stores. apply unique_In. now apply in_map.
Qed.

Lemma C10_default_filter_identity_witness :
  exists lo hi,
    default_date_range (load_data Examples.basket) = [lo; hi]
    /\ filtered_df (load_data Examples.basket) lo hi
         (default_stores (load_data Examples.basket))
       = load_data Examples.basket.
Proof.
  apply (@C10_default_filter_identity (load_data Examples.basket)).
  discriminate.
Defined.

(* ===================================================================== *)
(** * The grouped views                                                   *)
(* ===================================================================== *)

Section GroupedViews.



Lemma agg_In {K R B} (f : K -> list R -> B) (gs : list (K * list R))
    (b : B) :
  In b (agg f gs) <-> exists k rs, In (k, rs) gs /\ b = f k rs.
Proof.
  unfold agg. rewrite in_map_iff. split.
  - intros ([k rs] & <- & Hin). now exists k, rs.
  - intros (k & rs & Hin & ->). now exists (k, rs).
Qed.

Lemma agg_keys {K R B} (f : K -> list R -> B) (proj : B -> K)
    (gs : list (K * list R)) :
  (forall k rs, proj (f k rs) = k) -> map proj (agg f gs) = map fst gs.
Proof.
  intros Hp. unfold agg. rewrite map_map. apply map_ext.
  intros [k rs]. apply Hp.
Qed.


End GroupedViews.



(* ===================================================================== *)
(** * The averaged views                                                  *)
(* ===================================================================== *)

Section AveragedViews.
Context {K : Type} `{KeyOrdLaws K}.
Variable key : Row -> K.

Local Abbreviation group_means df := (groupby_mean key total_price df).

Lemma group_means_keys (df : list Row) :
  map fst (group_means df) = map fst (groupby key df).
Proof. apply agg_keys. reflexivity. Qed.

Lemma group_means_lookup (df : list Row) (k : K) :
  lookup k (group_means df)
  = match filter (fun r => keqb (key r) k) df with
    | [] => None
    | rs => Some (mean (map total_price rs))
    end.
Proof.
  unfold groupby_mean, agg.
  rewrite (lookup_map_snd (fun _ rows => mean (map total_price rows))).
  rewrite groupby_lookup.
  destruct (filter _ df); reflexivity.
Qed.


(** Sorting the group means by key leaves them as [groupby] made
    them. *)
Lemma sort_values_group_means (df : list Row) :
  sort_values fst (group_means df) = group_means df.
Proof.
  unfold sort_values. apply stable_sort_sorted.
  pose proof (groupby_sorted key df) as Hs.
  rewrite <- group_means_keys in Hs.
  induction (group_means df) as [|g l IH]; [constructor|].
  simpl in Hs. inversion Hs as [|? ? Hs' Hall]; subst.
  constructor; [now apply IH|].
  rewrite Forall_map in Hall. eapply Forall_impl; [|exact Hall].
  intros a Ha. unfold kleb. simpl in Ha. unfold klt in Ha. now rewrite Ha.
Qed.

(** The keys of the group means are distinct, so the means have one
    ascending order only: whichever sort [sort_values] runs, stable or
    not, it returns the frame below. *)
Lemma sorted_perm_unique {R} (by_ : R -> K) (l1 l2 : list R) :
  StronglySorted klt (map by_ l1) ->
  StronglySorted (fun a b => kleb (by_ a) (by_ b) = true) l2 ->
  Permutation l1 l2 -> l1 = l2.
Proof.
  revert l2. induction l1 as [|x l1 IH]; intros l2 Hs1 Hs2 Hp.
  - apply Permutation_nil in Hp. now subst.
  - destruct l2 as [|y l2].
    + apply Permutation_sym, Permutation_nil in Hp. discriminate.
    + simpl in Hs1. inversion Hs1 as [|? ? Hs1' Hall1]; subst.
      inversion Hs2 as [|? ? Hs2' Hall2]; subst.
      assert (Exy : y = x).
      { assert (Hy : In y (x :: l1))
          by (apply (Permutation_in _ (Permutation_sym Hp)); now left).
        destruct Hy as [E | Hy]; [now symmetry|]. exfalso.
        rewrite Forall_forall in Hall1, Hall2.
        assert (Hlt : klt (by_ x) (by_ y)) by (apply Hall1; now apply in_map).
        assert (Hx : In x (y :: l2))
          by (apply (Permutation_in _ Hp); now left).
        destruct Hx as [E | Hx].
        - subst. exact (klt_irrefl Hlt).
        - specialize (Hall2 _ Hx). unfold kleb in Hall2.
          rewrite (kcmp_antisym (by_ x) (by_ y)) in Hall2.
          unfold klt in Hlt. rewrite Hlt in Hall2. discriminate. }
      subst y. f_equal. apply IH; try assumption.
      eapply Permutation_cons_inv. exact Hp.
Qed.

Lemma group_means_any_sort (df : list Row) (l : list (K * option Qc)) :
  Permutation (group_means df) l ->
  StronglySorted (fun a b => kleb (fst a) (fst b) = true) l ->
  l = sort_values fst (group_means df).
Proof.
  intros Hp Hs. rewrite sort_values_group_means. symmetry.
  apply (sorted_perm_unique fst); try assumption.
  rewrite group_means_keys. apply groupby_sorted.
Qed.

(** A reindexed label carries the mean of its rows, or NaN when it has
    none. *)
Lemma reindex_group_means (labels : list K) (df : list Row) :
  reindex labels (group_means df)
  = map (fun l =>
           (l, mean (map total_price
                         (filter (fun r => keqb (key r) l) df))))
        labels.
Proof.
  unfold reindex. apply map_ext. intros l. f_equal.
  rewrite group_means_lookup.
  destruct (filter _ df); reflexivity.
Qed.

End AveragedViews.


Lemma average_None (l : list Qc) : Spec.average l = None <-> l = [].
Proof. destruct l; simpl; split; congruence. Qed.

Lemma week_day_order : day_order = Spec.week.
Proof. reflexivity. Qed.

(** C5: the day-of-week view always has exactly seven rows, Monday to
    Sunday in that order; a weekday with rows in the table carries the
    mean of their total_price, and a weekday without rows is present
    with a missing value (not zero, not left out). *)
Theorem C5_day_of_week_averages (fd : list Row) :
  daily_patterns fd
  = map (fun d => (d, Spec.average (Spec.prices_on_weekday d fd))) Spec.week
  /\ map fst (daily_patterns fd) = Spec.week
  /\ List.length (daily_patterns fd) = 7%nat
  /\ (forall d v, In (d, v) (daily_patterns fd) ->
        (v = None <->
         forall r, In r fd -> day_name (transaction_date r) <> d)).
Proof.
  assert (E : daily_patterns fd
              = map (fun d => (d, Spec.average (Spec.prices_on_weekday d fd)))
                    Spec.week).
  { unfold daily_patterns. rewrite reindex_group_means, week_day_order.
    apply map_ext. intros d. f_equal. rewrite mean_average.
    unfold Spec.prices_on_weekday. do 2 f_equal.
    apply filter_ext. intros r. apply keqb_string. }
  split; [exact E|]. rewrite E. split; [|split].
  - rewrite map_map. simpl. reflexivity.
  - reflexivity.
  - intros d v Hin. apply in_map_iff in Hin.
    destruct Hin as (d' & [= -> <-] & _).
    rewrite average_None. unfold Spec.prices_on_weekday. split.
    + intros Hnil r Hr Hd. apply map_eq_nil in Hnil.
      assert (Hf : In r (filter (fun r0 =>
                   String.eqb (day_name (transaction_date r0)) d) fd)).
      { apply filter_In. split; [assumption|]. now apply String.eqb_eq. }
      rewrite Hnil in Hf. destruct Hf.
    + intros Hno.
      destruct (filter _ fd) as [|r rs] eqn:Ef; [reflexivity|]. exfalso.
      assert (Hf : In r (filter (fun r0 =>
                   String.eqb (day_name (transaction_date r0)) d) fd))
        by (rewrite Ef; now left).
      apply filter_In in Hf. destruct Hf as [Hr Hd].
      apply String.eqb_eq in Hd. exact (Hno r Hr Hd).
Qed.


(* ===================================================================== *)
(** * Top products                                                        *)
(* ===================================================================== *)

Section TopN.
Context {K : Type} `{KeyOrdLaws K}.

Local Abbreviation by_revenue :=
  (fun a b : Metrics K => Qcleb (agg_total_price b) (agg_total_price a)).

Lemma ranks_before_le (a b : Metrics K) :
  Spec.ranks_before a b -> (agg_total_price b <= agg_total_price a)%Qc.
Proof.
  intros [Hlt | [-> _]]; [now apply Qclt_le_weak | apply Qcle_refl].
Qed.

Lemma le_ranks_before (a b : Metrics K) :
  (agg_total_price b <= agg_total_price a)%Qc ->
  klt (group_key a) (group_key b) ->
  Spec.ranks_before a b.
Proof.
  intros Hle Hk. destruct (Qcle_lt_or_eq _ _ Hle) as [Hlt | E].
  - now left.
  - right. split; [now symmetry | assumption].
Qed.

Lemma insert_sorted_In {R} (leb : R -> R -> bool) (x z : R) (l : list R) :
  In z (insert_sorted leb x l) <-> z = x \/ In z l.
Proof.
  split.
  - intros Hz. apply (Permutation_in _ (insert_sorted_perm leb x l)) in Hz.
    destruct Hz; auto.
  - intros Hz.
    apply (Permutation_in _ (Permutation_sym (insert_sorted_perm leb x l))).
    destruct Hz; [left | right]; auto.
Qed.

(** A group that precedes all of [l] in the product table goes in
    front of the groups it ties with. *)
Lemma insert_ranked (x : Metrics K) (l : list (Metrics K)) :
  StronglySorted Spec.ranks_before l ->
  Forall (fun z => klt (group_key x) (group_key z)) l ->
  StronglySorted Spec.ranks_before (insert_sorted by_revenue x l).
Proof.
  induction 1 as [|y l Hs IH Hall]; intros Hk; simpl.
  - repeat constructor.
  - inversion Hk as [|? ? Hky Hkl]; subst.
    destruct (Qcleb (agg_total_price y) (agg_total_price x)) eqn:E.
    + apply Qcleb_le in E. constructor; [now constructor|].
      constructor; [now apply le_ranks_before|].
      rewrite Forall_forall in *. intros z Hz.
      apply le_ranks_before; [|now apply Hkl].
      eapply Qcle_trans; [|exact E].
      apply ranks_before_le. now apply Hall.
    + apply Qcleb_gt in E. constructor; [now apply IH|].
      rewrite Forall_forall in *. intros z Hz.
      apply insert_sorted_In in Hz. destruct Hz as [-> | Hz].
      * now left.
      * now apply Hall.
Qed.

Lemma stable_sort_ranked (l : list (Metrics K)) :
  StronglySorted klt (map group_key l) ->
  StronglySorted Spec.ranks_before (stable_sort by_revenue l).
Proof.
  induction l as [|x l IH]; simpl; intros Hs; [constructor|].
  inversion Hs as [|? ? Hs' Hall]; subst.
  apply insert_ranked; [now apply IH|].
  rewrite Forall_forall in *. intros z Hz.
  apply stable_sort_In in Hz. apply Hall. now apply in_map.
Qed.

Lemma ranked_descending (l : list (Metrics K)) :
  StronglySorted Spec.ranks_before l -> Spec.descending l.
Proof.
  unfold Spec.descending.
  induction 1 as [|x l Hs IH Hall]; constructor; [assumption|].
  eapply Forall_impl; [|exact Hall]. intros a. apply ranks_before_le.
Qed.

Variable n : nat.
Variable pm : list (Metrics K).
Hypothesis pm_sorted : StronglySorted klt (map group_key pm).

Lemma nlargest_length :
  List.length (nlargest n agg_total_price pm) = Nat.min n (List.length pm).
Proof.
  unfold nlargest. rewrite length_firstn.
  now rewrite (Permutation_length (stable_sort_perm _ pm)).
Qed.

Lemma nlargest_ranked :
  StronglySorted Spec.ranks_before (nlargest n agg_total_price pm).
Proof.
  unfold nlargest.
  apply StronglySorted_app_l with (l2 := skipn n (stable_sort by_revenue pm)).
  rewrite firstn_skipn. now apply stable_sort_ranked.
Qed.

Lemma nlargest_incl (a : Metrics K) :
  In a (nlargest n agg_total_price pm) -> In a pm.
Proof.
  unfold nlargest. intros Ha.
  apply (stable_sort_In by_revenue).
  rewrite <- (firstn_skipn n (stable_sort by_revenue pm)).
  apply in_or_app. now left.
Qed.

(** Whatever is left out ranks after everything that is taken. *)
Lemma nlargest_best (a b : Metrics K) :
  In a (nlargest n agg_total_price pm) -> In b pm ->
  ~ In b (nlargest n agg_total_price pm) ->
  Spec.ranks_before a b.
Proof.
  unfold nlargest. intros Ha Hb Hnb.
  apply (stable_sort_In by_revenue) in Hb.
  rewrite <- (firstn_skipn n (stable_sort by_revenue pm)) in Hb.
  apply in_app_or in Hb. destruct Hb as [Hb | Hb]; [contradiction|].
  eapply StronglySorted_app_cross; [|exact Ha | exact Hb].
  rewrite firstn_skipn. now apply stable_sort_ranked.
Qed.

(** Stability in its plain form: the taken groups of one revenue are
    the first groups of that revenue in the product table. *)
Lemma nlargest_stable (v : Qc) :
  exists rest,
    Spec.with_revenue v pm
    = Spec.with_revenue v (nlargest n agg_total_price pm) ++ rest.
Proof.
  unfold nlargest, Spec.with_revenue.
  exists (filter (fun m => Qc_eq_bool (agg_total_price m) v)
                 (skipn n (stable_sort by_revenue pm))).
  rewrite <- filter_app, firstn_skipn. symmetry.
  apply stable_sort_filter. intros a b Ha Hb.
  apply Qc_eq_bool_correct in Ha, Hb. rewrite Ha, Hb.
  apply Qcleb_le, Qcle_refl.
Qed.

End TopN.

Lemma product_metrics_sorted (fd : list Row) :
  StronglySorted klt (map group_key (create_product_metrics fd)).
Proof.
  unfold create_product_metrics. rewrite agg_keys by reflexivity.
  apply groupby_sorted.
Qed.

Lemma product_metrics_length (fd : list Row) :
  Z.of_nat (List.length (create_product_metrics fd))
  = nunique (map (fun r => (product_category r, product_type r)) fd).
Proof.
  unfold create_product_metrics, agg. rewrite length_map.
  apply groupby_length.
Qed.

(** C4, as the code has it: the top-10 view holds min(10, number of
    distinct (category, type) groups) rows of the product table, in
    descending order of summed total_price where equal revenues may
    stand next to each other; groups of equal revenue come in the order
    of the product table (ascending by category, then type), and every
    group left out ranks after every group taken. *)
Theorem C4_top_products (fd : list Row) :
  let pm := create_product_metrics fd in
  let top := top_products fd in
  Z.of_nat (List.length pm)
  = nunique (map (fun r => (product_category r, product_type r)) fd)
  /\ List.length top = Nat.min 10 (List.length pm)
  /\ Spec.descending top
  /\ StronglySorted Spec.ranks_before top
  /\ (forall v, exists rest,
        Spec.with_revenue v pm = Spec.with_revenue v top ++ rest)
  /\ (forall a, In a top -> In a pm)
  /\ (forall a b, In a top -> In b pm -> ~ In b top ->
                  Spec.ranks_before a b).
Proof.
  cbv zeta. unfold top_products.
  pose proof (product_metrics_sorted fd) as Hs.
  split; [apply product_metrics_length|].
  split; [apply nlargest_length|].
  split; [apply ranked_descending; now apply nlargest_ranked|].
  split; [now apply nlargest_ranked|].
  split; [intros v; apply nlargest_stable|].
  split; [intros a; apply nlargest_incl|].
  intros a b. now apply nlargest_best.
Qed.

(** Two products of equal revenue are both listed, so the view is not
    strictly descending. *)
Lemma C4_not_strictly_descending :
  ~ Spec.strictly_descending (top_products (load_data Examples.tie)).
Proof.
  unfold Spec.strictly_descending. intros Hs.
  assert (E : map (fun m => this (agg_total_price m))
                  (top_products (load_data Examples.tie))
              = [6 # 1; 6 # 1]%Q) by (vm_compute; reflexivity).
  destruct (top_products (load_data Examples.tie)) as [|a [|b l]];
    try discriminate E.
  injection E as Ea Eb _.
  inversion Hs as [|? ? _ Hall]; subst.
  inversion Hall as [|? ? Hlt _]; subst.
  unfold Qclt in Hlt. rewrite Ea, Eb in Hlt.
  exact (Qlt_irrefl _ Hlt).
Qed.

(** The tea is sold first in [Examples.tie], yet the coffee is listed
    first: ties follow the product table, not the order of sale. *)
Example tie_order :
  map group_key (top_products (load_data Examples.tie))
  = [("Coffee", "Latte"); ("Tea", "Chai")]%string.
Proof. vm_compute. reflexivity. Qed.

(* ===================================================================== *)
(** * The script                                                          *)
(* ===================================================================== *)

Section Script.
Local Open Scope string_scope.
Local Open Scope list_scope.

Lemma bind_st {B} (w : widget) (k : ui B) :
  bind (st w) (fun _ => k) = (w :: fst k, snd k).
Proof. destruct k. reflexivity. Qed.

Lemma bind_ret {A B} (a : A) (k : A -> ui B) : bind (ret a) k = k a.
Proof. unfold bind, ret. destruct (k a). reflexivity. Qed.

Lemma bind_halt {A B} (s : stop) (k : A -> ui B) :
  bind (halt s) k = halt s.
Proof. reflexivity. Qed.

Lemma non_empty_range (df : list Row) :
  df <> [] ->
  exists tmin tmax,
    col_min (map transaction_date df) = Some tmin
    /\ col_max (map transaction_date df) = Some tmax
    /\ default_date_range df = [date tmin; date tmax].
Proof.
  intros Hne. unfold default_date_range.
  destruct df as [|r df]; [congruence|]. simpl. eauto.
Qed.

(** A run of [main] that reaches the filter. *)
Lemma main_filtered (csv : list CsvRow) (d0 d1 : Z) (rest : list Z)
    (stores : list string) :
  load_data csv <> [] ->
  exists lo hi,
    default_date_range (load_data csv) = [lo; hi]
    /\ main csv (d0 :: d1 :: rest) stores
       = let fd := filtered_df (load_data csv) d0 d1 stores in
         if empty fd
         then (Spec.preamble (load_data csv) lo hi
                 ++ [st_title "Maven Roasters Sales Dashboard"; Spec.notice],
               inl Return)
         else (Spec.preamble (load_data csv) lo hi
                 ++ st_title "Maven Roasters Sales Dashboard"
                 :: rendered (top_level_metrics fd) ++ rendered (charts fd),
               inr tt).
Proof.
  intros Hne.
  destruct (non_empty_range Hne) as (tmin & tmax & Emin & Emax & Edef).
  exists (date tmin), (date tmax). split; [exact Edef|].
  unfold main. cbv zeta.
  destruct (load_data csv) as [|r df] eqn:E; [congruence|].
  cbn [empty]. rewrite Emin, Emax.
  unfold timestamp, index. cbn [nth_error].
  rewrite !bind_st, !bind_ret, !bind_st.
  destruct (empty (filtered_df (r :: df) d0 d1 stores)); reflexivity.
Qed.

(** The runs of [main] that stop before the filter. *)
Lemma main_no_table (csv : list CsvRow) (date_range : list Z)
    (stores : list string) :
  load_data csv = [] ->
  main csv date_range stores
  = ([st_set_page_config "Maven Roasters Dashboard";
      st_spinner "Loading data..."], inl Return).
Proof. intros E. unfold main. rewrite E. reflexivity. Qed.

Lemma main_short_range (csv : list CsvRow) (date_range : list Z)
    (stores : list string) :
  load_data csv <> [] -> (List.length date_range < 2)%nat ->
  exists lo hi,
    main csv date_range stores
    = (firstn 4 (Spec.preamble (load_data csv) lo hi), inl IndexError).
Proof.
  intros Hne Hlen.
  destruct (non_empty_range Hne) as (tmin & tmax & Emin & Emax & Edef).
  exists (date tmin), (date tmax).
  unfold main. cbv zeta.
  destruct (load_data csv) as [|r df] eqn:E; [congruence|].
  cbn [empty]. rewrite Emin, Emax.
  unfold timestamp, index.
  destruct date_range as [|d0 [|d1 rest]]; simpl in Hlen; try lia;
    cbn [nth_error]; rewrite !bind_st, !bind_ret, !bind_st; reflexivity.
Qed.




Lemma empty_false {A} (l : list A) : l <> [] -> empty l = false.
Proof. destruct l; [congruence | reflexivity]. Qed.

Lemma empty_true {A} (l : list A) : empty l = true <-> l = [].
Proof. destruct l; simpl; split; congruence. Qed.

Lemma preamble_quiet (df : list Row) (lo hi : Z) (w : widget) :
  In w (Spec.preamble df lo hi) -> Spec.shows_data w = false.
Proof.
  unfold Spec.preamble. simpl.
  intros [<- | [<- | [<- | [<- | [<- | []]]]]]; reflexivity.
Qed.

(** Only a run with a non-empty selection shows a metric, a chart or
    the data set. *)
Lemma data_needs_rows (csv : list CsvRow) (date_range : list Z)
    (stores : list string) (w : widget) :
  In w (rendered (main csv date_range stores)) ->
  Spec.shows_data w = true ->
  exists d0 d1 rest,
    date_range = d0 :: d1 :: rest
    /\ filtered_df (load_data csv) d0 d1 stores <> [].
Proof.
  intros Hw Hshow.
  destruct (load_data csv) as [|r0 df0] eqn:Edf.
  - rewrite (@main_no_table csv date_range stores Edf) in Hw. simpl in Hw.
    destruct Hw as [<- | [<- | []]]; discriminate.
  - assert (Hne : load_data csv <> []) by (rewrite Edf; discriminate).
    destruct date_range as [|d0 [|d1 rest]].
    + destruct (@main_short_range csv [] stores Hne) as (lo & hi & E);
        [simpl; lia|].
      rewrite E in Hw. simpl in Hw.
      destruct Hw as [<- | [<- | [<- | [<- | []]]]]; discriminate.
    + destruct (@main_short_range csv [d0] stores Hne) as (lo & hi & E);
        [simpl; lia|].
      rewrite E in Hw. simpl in Hw.
      destruct Hw as [<- | [<- | [<- | [<- | []]]]]; discriminate.
    + exists d0, d1, rest. split; [reflexivity|].
      destruct (@main_filtered csv d0 d1 rest stores Hne)
        as (lo & hi & _ & E).
      rewrite E in Hw. cbv zeta in Hw. rewrite <- Edf.
      destruct (empty (filtered_df (load_data csv) d0 d1 stores)) eqn:Ee.
      * unfold rendered in Hw. cbn [fst] in Hw.
        apply in_app_or in Hw. destruct Hw as [Hw | Hw].
        -- apply preamble_quiet in Hw. congruence.
        -- simpl in Hw. destruct Hw as [<- | [<- | []]]; discriminate.
      * intros Hnil. apply empty_true in Hnil. congruence.
Qed.

(** The emptiness check of line 37 comes before [min()] and [max()]: no
    run stops on a missing timestamp. *)
Lemma main_never_NaT (csv : list CsvRow) (date_range : list Z)
    (stores : list string) :
  snd (main csv date_range stores) <> inl NaT.
Proof.
  destruct (load_data csv) as [|r0 df0] eqn:Edf.
  - rewrite (@main_no_table csv date_range stores Edf). discriminate.
  - assert (Hne : load_data csv <> []) by (rewrite Edf; discriminate).
    destruct date_range as [|d0 [|d1 rest]].
    + destruct (@main_short_range csv [] stores Hne) as (lo & hi & E);
        [simpl; lia|]. rewrite E. discriminate.
    + destruct (@main_short_range csv [d0] stores Hne) as (lo & hi & E);
        [simpl; lia|]. rewrite E. discriminate.
    + destruct (@main_filtered csv d0 d1 rest stores Hne)
        as (lo & hi & _ & E).
      rewrite E. cbv zeta.
      destruct (empty (filtered_df (load_data csv) d0 d1 stores));
        discriminate.
Qed.

End Script.

(** C9: when the selection leaves no row, the page shows the title and
    the no-data notice and stops: no metric, no chart and no data set
    view is rendered, so no aggregate is computed for that
    interaction. *)
Theorem C9_empty_selection (csv : list CsvRow) (d0 d1 : Z)
    (stores : list string) :
  load_data csv <> [] ->
  filtered_df (load_data csv) d0 d1 stores = [] ->
  exists lo hi,
    main csv [d0; d1] stores
    = ((Spec.preamble (load_data csv) lo hi
        ++ [st_title "Maven Roasters Sales Dashboard"; Spec.notice])%list,
       inl Return)
    /\ Forall (fun w => Spec.shows_data w = false)
              (rendered (main csv [d0; d1] stores)).
Proof.
  intros Hne Hnil.
  destruct (@main_filtered csv d0 d1 [] stores Hne) as (lo & hi & _ & E).
  cbv zeta in E. rewrite Hnil in E. cbn [empty] in E.
  exists lo, hi. split; [exact E|].
  rewrite E. unfold rendered. cbn [fst].
  apply Forall_app. split.
  - apply Forall_forall. intros w. apply preamble_quiet.
  - repeat constructor.
Qed.

Lemma C9_empty_selection_witness :
  exists lo hi,
    main Examples.two_rows [Examples.d2023_01_02; Examples.d2023_01_02]
         ["A"; "B"]%string
    = ((Spec.preamble (load_data Examples.two_rows) lo hi
        ++ [st_title "Maven Roasters Sales Dashboard"; Spec.notice])%list,
       inl Return)
    /\ Forall (fun w => Spec.shows_data w = false)
              (rendered (main Examples.two_rows
                           [Examples.d2023_01_02; Examples.d2023_01_02]
                           ["A"; "B"]%string)).
Proof.
  apply (@C9_empty_selection Examples.two_rows Examples.d2023_01_02
           Examples.d2023_01_02 ["A"; "B"]%string).
  - discriminate.
  - vm_compute. reflexivity.
Defined.

(* ===================================================================== *)
(** * The KPI summary                                                     *)
(* ===================================================================== *)





(** The average is taken over rows, not over purchases: in
    [Examples.basket] three rows make two purchases worth 9 in all, so
    the average shown is 3 and not 9/2. *)
Example average_is_per_row :
  let fd := load_data Examples.basket in
  mean (map total_price fd) = Some (Examples.dec 3 1)
  /\ (sum (map total_price fd)
      / Q2Qc (inject_Z (nunique (map transaction_id fd))))%Qc
     = Examples.dec 9 2.
Proof.
  split; [unfold load_data, Examples.basket, mean; cbn [map]; f_equal|];
    apply Qc_is_canon; vm_compute; reflexivity.
Qed.

(* ===================================================================== *)
(** * The views on the sample tables                                      *)
(* ===================================================================== *)

Section Samples.
Local Open Scope string_scope.

(** The specification's example: one daily row, of revenue 11. *)
Example two_rows_daily :
  map (fun m => (group_key m, this (agg_total_price m),
                 agg_transaction_id m, agg_transaction_qty m))
      (create_daily_metrics (load_data Examples.two_rows))
  = [(to_datetime Examples.d2023_01_01, 11 # 1, 2, 3)%Z].
Proof. vm_compute. reflexivity. Qed.

(** The specification's example: hourly means 6 at "09" and 5 at
    "10". *)
Example two_rows_hourly :
  map (fun p => (fst p, option_map this (snd p)))
      (hourly_data (load_data Examples.two_rows))
  = [("09", Some (6 # 1)); ("10", Some (5 # 1))].
Proof. vm_compute. reflexivity. Qed.

(** 2023-01-01 was a Sunday; the other six days stay without value. *)
Example two_rows_weekdays :
  map (fun p => (fst p, option_map this (snd p)))
      (daily_patterns (load_data Examples.two_rows))
  = [("Monday", None); ("Tuesday", None); ("Wednesday", None);
     ("Thursday", None); ("Friday", None); ("Saturday", None);
     ("Sunday", Some (11 # 2))].
Proof. vm_compute. reflexivity. Qed.

(** A one-character time is its own hour key. *)
Example short_time_hourly :
  map (fun p => (fst p, option_map this (snd p)))
      (hourly_data (load_data Examples.short_time))
  = [("09", Some (2 # 1)); ("9", Some (4 # 1))].
Proof. vm_compute. reflexivity. Qed.


Lemma C4_top_products_witness :
  exists a,
    In a (top_products (load_data Examples.tie))
    /\ In a (create_product_metrics (load_data Examples.tie)).
Proof.
  assert (Hin : In (nth 0 (top_products (load_data Examples.tie))
                        (Examples.blank_metrics ("", "")))
                   (top_products (load_data Examples.tie)))
    by (apply nth_In; vm_compute; lia).
  eexists. split; [exact Hin|].
  destruct (C4_top_products (load_data Examples.tie))
    as (_ & _ & _ & _ & _ & Hincl & _).
  exact (Hincl _ Hin).
Defined.

Lemma C5_day_of_week_averages_witness :
  @None Qc = None
  <-> forall r, In r (load_data Examples.two_rows) ->
                day_name (transaction_date r) <> "Monday".
Proof.
  destruct (C5_day_of_week_averages (load_data Examples.two_rows))
    as (_ & _ & _ & Hmissing).
  apply (Hmissing "Monday" None).
  vm_compute. left. reflexivity.
Defined.


End Samples.

(* ===================================================================== *)
(** * More on the filter                                                  *)
(* ===================================================================== *)

Section FilterAlgebra.
Local Open Scope Z_scope.

Lemma filter_filter {A} (p q : A -> bool) (l : list A) :
  filter p (filter q l) = filter (fun x => q x && p x) l.
Proof.
  induction l as [|x l IH]; simpl; [reflexivity|].
  destruct (q x); simpl; [destruct (p x)|]; now rewrite IH.
Qed.

Lemma filtered_df_keepsb (df : list Row) (s e : Z) (stores : list string) :
  filtered_df df s e stores = filter (Spec.keepsb s e stores) df.
Proof.
  unfold filtered_df. apply filter_ext. intros r. apply filter_mask_keepsb.
Qed.

Lemma filtered_df_In (df : list Row) (s e : Z) (stores : list string)
    (r : Row) :
  In r (filtered_df df s e stores)
  <-> In r df /\ s <= date (transaction_date r) <= e
      /\ In (store_location r) stores.
Proof.
  rewrite filtered_df_keepsb, filter_In. unfold Spec.keepsb.
  fold (date (transaction_date r)).
  rewrite !andb_true_iff, !Z.leb_le, <- isin_existsb, isin_In. tauto.
Qed.

End FilterAlgebra.

(** X1: applying the same selection to an already filtered table changes
    nothing. *)
Theorem X1_filter_idempotent (df : list Row) (s e : Z)
    (stores : list string) :
  filtered_df (filtered_df df s e stores) s e stores
  = filtered_df df s e stores.
Proof.
  unfold filtered_df at 1 2. rewrite filter_filter.
  apply filter_ext. intros r. apply andb_diag.
Qed.

(** X2: a date range whose start lies after its end selects no row,
    whatever the stores. *)
Theorem X2_inverted_range_is_empty (df : list Row) (s e : Z)
    (stores : list string) :
  (e < s)%Z -> filtered_df df s e stores = [].
Proof.
  intros Hlt. rewrite filtered_df_keepsb.
  induction df as [|r df IH]; simpl; [reflexivity|].
  unfold Spec.keepsb at 1.
  destruct (s <=? transaction_date r / NS_PER_DAY)%Z eqn:E1;
    destruct (transaction_date r / NS_PER_DAY <=? e)%Z eqn:E2;
    simpl; try exact IH.
  apply Z.leb_le in E1, E2. lia.
Qed.

Lemma X2_inverted_range_is_empty_witness :
  filtered_df (load_data Examples.two_rows) Examples.d2023_01_02
              Examples.d2023_01_01 ["A"; "B"]%string = [].
Proof.
  apply (@X2_inverted_range_is_empty (load_data Examples.two_rows)
           Examples.d2023_01_02 Examples.d2023_01_01 ["A"; "B"]%string).
  reflexivity.
Defined.

(** X3: filtering a filtered table is one filter with the two selections
    intersected: the later start, the earlier end and the stores picked
    both times.  The order of the two filters therefore does not
    matter. *)
Theorem X3_filter_twice_intersects (df : list Row) (s1 e1 s2 e2 : Z)
    (stores1 stores2 : list string) :
  filtered_df (filtered_df df s1 e1 stores1) s2 e2 stores2
  = filtered_df df (Z.max s1 s2) (Z.min e1 e2)
                (filter (isin stores1) stores2)
  /\ filtered_df (filtered_df df s1 e1 stores1) s2 e2 stores2
     = filtered_df (filtered_df df s2 e2 stores2) s1 e1 stores1.
Proof.
  assert (Hmask : forall a b c d st st' r,
             filter_mask (start_date a) (end_date b) st r
             && filter_mask (start_date c) (end_date d) st' r
             = filter_mask (start_date (Z.max a c)) (end_date (Z.min b d))
                           (filter (isin st) st') r).
  { intros a b c d st st' r. rewrite !filter_mask_keepsb.
    apply eq_true_iff_eq. unfold Spec.keepsb.
    rewrite !andb_true_iff, !Z.leb_le, <- !isin_existsb, !isin_In.
    rewrite filter_In, isin_In.
    generalize (transaction_date r / NS_PER_DAY)%Z. intros day.
    intuition lia. }
  split.
  - unfold filtered_df at 1 2. rewrite filter_filter.
    apply filter_ext. intros r. apply Hmask.
  - unfold filtered_df. rewrite !filter_filter.
    apply filter_ext. intros r. apply andb_comm.
Qed.

(** X4: the end-of-day shift of line 56 (one day on, one second back) is
    undone by [normalize] on line 68: the mask is the same as with the
    plain midnight of the end date. *)
Theorem X4_end_of_day_shift_is_neutral (s e : Z) (stores : list string)
    (r : Row) :
  filter_mask (start_date s) (end_date e) stores r
  = filter_mask (to_datetime s) (to_datetime e) stores r.
Proof.
  unfold filter_mask.
  rewrite !Z.geb_leb, !normalize_le.
  rewrite date_start_date, date_end_date, !date_to_datetime. reflexivity.
Qed.

(* ===================================================================== *)
(** * Signs and bounds                                                    *)
(* ===================================================================== *)

Section Signs.
Local Open Scope Qc_scope.

Lemma Qc_of_Z_nonneg (z : Z) : (0 <= z)%Z -> Q2Qc 0 <= Q2Qc (inject_Z z).
Proof.
  intros Hz. unfold Qcle, Q2Qc. cbn [this]. rewrite !Qred_correct.
  unfold Qle. simpl. lia.
Qed.

Lemma Qcmult_nonneg (a b : Qc) : Q2Qc 0 <= a -> Q2Qc 0 <= b -> Q2Qc 0 <= a * b.
Proof.
  intros Ha Hb. rewrite <- (Qcmult_0_l b). now apply Qcmult_le_compat_r.
Qed.

Lemma sum_nonneg (l : list Qc) :
  (forall x, In x l -> Q2Qc 0 <= x) -> Q2Qc 0 <= sum l.
Proof.
  induction l as [|x l IH]; intros Hl.
  - rewrite sum_nil. apply Qcle_refl.
  - rewrite sum_cons. rewrite <- (Qcplus_0_l (Q2Qc 0)).
    apply Qcplus_le_compat.
    + apply Hl. now left.
    + apply IH. intros y Hy. apply Hl. now right.
Qed.

Lemma load_data_In (csv : list CsvRow) (r : Row) :
  In r (load_data csv) ->
  exists c, In c csv
            /\ transaction_qty r = csv_transaction_qty c
            /\ unit_price r = csv_unit_price c
            /\ total_price r
               = Q2Qc (inject_Z (csv_transaction_qty c)) * csv_unit_price c.
Proof.
  unfold load_data. rewrite in_map_iff. intros (c & <- & Hc).
  exists c. simpl. auto.
Qed.

(** The revenue of any part of a table of non-negative prices is
    non-negative. *)
Lemma revenue_nonneg (df rows : list Row) :
  (forall r, In r df -> Q2Qc 0 <= total_price r) ->
  incl rows df ->
  Q2Qc 0 <= sum (map total_price rows).
Proof.
  intros Hdf Hincl. apply sum_nonneg. intros x Hx.
  apply in_map_iff in Hx. destruct Hx as (r & <- & Hr). auto.
Qed.

Lemma group_rows_incl {K} `{KeyOrdLaws K} (key : Row -> K) (df : list Row)
    (k : K) (rs : list Row) :
  In (k, rs) (groupby key df) -> incl rs df.
Proof.
  intros Hin. apply groupby_In in Hin. destruct Hin as [-> _].
  intros r Hr. apply filter_In in Hr. tauto.
Qed.

End Signs.

(** X5: when no line of the file has a negative quantity or a negative
    unit price, nothing the page shows as revenue is negative: not the
    total of a selection, and not the revenue of any day, product or
    store of it. *)
Theorem X5_revenue_is_never_negative (csv : list CsvRow) (d0 d1 : Z)
    (stores : list string) :
  (forall c, In c csv ->
             (0 <= csv_transaction_qty c)%Z
             /\ (Q2Qc 0 <= csv_unit_price c)%Qc) ->
  let fd := filtered_df (load_data csv) d0 d1 stores in
  (Q2Qc 0 <= sum (map total_price fd))%Qc
  /\ (forall m, In m (create_daily_metrics fd) ->
                (Q2Qc 0 <= agg_total_price m)%Qc)
  /\ (forall m, In m (create_product_metrics fd) ->
                (Q2Qc 0 <= agg_total_price m)%Qc)
  /\ (forall m, In m (store_metrics fd) ->
                (Q2Qc 0 <= agg_total_price m)%Qc).
Proof.
  intros Hcsv fd.
  assert (Hfd : forall r, In r fd -> (Q2Qc 0 <= total_price r)%Qc).
  { intros r Hr. apply filter_In in Hr. destruct Hr as [Hr _].
    apply load_data_In in Hr. destruct Hr as (c & Hc & _ & _ & ->).
    destruct (Hcsv c Hc) as [Hq Hp].
    apply Qcmult_nonneg; [now apply Qc_of_Z_nonneg | exact Hp]. }
  split; [apply (revenue_nonneg Hfd); apply incl_refl|].
  repeat split; intros m Hm; apply agg_In in Hm;
    destruct Hm as (k & rs & Hin & ->); simpl;
    apply (revenue_nonneg Hfd); exact (@group_rows_incl _ _ _ _ _ _ _ Hin).
Qed.

Lemma X5_revenue_is_never_negative_witness :
  (Q2Qc 0 <= sum (map total_price
                      (filtered_df (load_data Examples.basket)
                                   Examples.d2023_01_01 Examples.d2023_01_02
                                   ["A"]%string)))%Qc.
Proof.
  apply (@X5_revenue_is_never_negative Examples.basket Examples.d2023_01_01
           Examples.d2023_01_02 ["A"]%string).
  intros c Hc. simpl in Hc.
  destruct Hc as [<- | [<- | [<- | []]]]; split;
    solve [discriminate | vm_compute; discriminate].
Defined.

(* ===================================================================== *)
(** * The sidebar and the ways a run ends                                 *)
(* ===================================================================== *)

Section Sidebar.
Local Open Scope Z_scope.

Lemma fold_min_In (l : list Z) (a : Z) : In (fold_left Z.min l a) (a :: l).
Proof.
  revert a. induction l as [|y l IH]; intros a; simpl; [now left|].
  destruct (IH (Z.min a y)) as [E | Hin].
  - rewrite <- E. destruct (Z.min_spec a y) as [[_ ->] | [_ ->]]; auto.
  - auto.
Qed.

Lemma fold_max_In (l : list Z) (a : Z) : In (fold_left Z.max l a) (a :: l).
Proof.
  revert a. induction l as [|y l IH]; intros a; simpl; [now left|].
  destruct (IH (Z.max a y)) as [E | Hin].
  - rewrite <- E. destruct (Z.max_spec a y) as [[_ ->] | [_ ->]]; auto.
  - auto.
Qed.

Lemma col_min_In (l : list Z) (m : Z) : col_min l = Some m -> In m l.
Proof.
  destruct l as [|a l]; simpl; [discriminate|]. intros [= <-].
  apply fold_min_In.
Qed.

Lemma col_max_In (l : list Z) (m : Z) : col_max l = Some m -> In m l.
Proof.
  destruct l as [|a l]; simpl; [discriminate|]. intros [= <-].
  apply fold_max_In.
Qed.

End Sidebar.

(** X6: on a non-empty table the date widget is given a well-formed
    range: its two ends are the days of actual rows, the first is not
    after the second, and every row's day lies between them.  The store
    selector offers each store of the table once and nothing else. *)
Theorem X6_sidebar_defaults (df : list Row) :
  df <> [] ->
  exists lo hi,
    default_date_range df = [lo; hi]
    /\ (lo <= hi)%Z
    /\ (exists r, In r df /\ date (transaction_date r) = lo)
    /\ (exists r, In r df /\ date (transaction_date r) = hi)
    /\ (forall r, In r df -> (lo <= date (transaction_date r) <= hi)%Z)
    /\ NoDup (default_stores df)
    /\ (forall s, In s (default_stores df)
                  <-> exists r, In r df /\ store_location r = s).
Proof.
  intros Hne.
  destruct (non_empty_range Hne) as (tmin & tmax & Emin & Emax & Edef).
  exists (date tmin), (date tmax).
  assert (Hall : forall r, In r df ->
                 (date tmin <= date (transaction_date r) <= date tmax)%Z).
  { intros r Hr.
    assert (Ht : In (transaction_date r) (map transaction_date df))
      by now apply in_map.
    split; apply date_mono.
    - eapply col_min_le; eassumption.
    - eapply col_max_ge; eassumption. }
  assert (Hlo : exists r, In r df /\ date (transaction_date r) = date tmin).
  { apply col_min_In in Emin. apply in_map_iff in Emin.
    destruct Emin as (r & <- & Hr). now exists r. }
  assert (Hhi : exists r, In r df /\ date (transaction_date r) = date tmax).
  { apply col_max_In in Emax. apply in_map_iff in Emax.
    destruct Emax as (r & <- & Hr). now exists r. }
  split; [exact Edef|]. split.
  { destruct Hlo as (r & Hr & <-). apply (Hall r Hr). }
  split; [exact Hlo|]. split; [exact Hhi|]. split; [exact Hall|].
  unfold default_stores. split; [apply unique_NoDup|].
  intros s. rewrite unique_In, in_map_iff.
  split; intros (r & H1 & H2); exists r; tauto.
Qed.

Lemma X6_sidebar_defaults_witness :
  exists lo hi,
    default_date_range (load_data Examples.basket) = [lo; hi]
    /\ (lo <= hi)%Z.
Proof.
  destruct (@X6_sidebar_defaults (load_data Examples.basket))
    as (lo & hi & E & Hle & _); [discriminate|].
  now exists lo, hi.
Defined.

Section Runs.
Local Open Scope string_scope.
Local Open Scope list_scope.

Lemma load_data_nil (csv : list CsvRow) : load_data csv = [] <-> csv = [].
Proof.
  unfold load_data. split; [apply map_eq_nil | now intros ->].
Qed.

(** A run whose date widget returned fewer than two dates. *)
Lemma main_index_error (csv : list CsvRow) (date_range : list Z)
    (stores : list string) (lo hi : Z) :
  default_date_range (load_data csv) = [lo; hi] ->
  (List.length date_range < 2)%nat ->
  main csv date_range stores
  = ([ st_set_page_config "Maven Roasters Dashboard";
       st_spinner "Loading data...";
       st_sidebar_header "Filters";
       st_sidebar_date_input "Select Date Range" [lo; hi] lo hi ],
     inl IndexError).
Proof.
  intros Edef Hlen. unfold default_date_range in Edef. unfold main. cbv zeta.
  destruct (load_data csv) as [|r df] eqn:E; [discriminate|].
  cbn [empty].
  destruct (col_min (map transaction_date (r :: df))) as [tmin|];
    [|discriminate].
  destruct (col_max (map transaction_date (r :: df))) as [tmax|];
    [|discriminate].
  injection Edef as <- <-.
  unfold timestamp, index.
  destruct date_range as [|d0 [|d1 rest]]; simpl in Hlen; try lia;
    cbn [nth_error]; rewrite !bind_st, !bind_ret, !bind_st; reflexivity.
Qed.

End Runs.


(** X8: when the file has lines but the date widget returns fewer than
    two dates (the user has picked a start date only), [date_range[1]]
    fails: the run stops on an IndexError after the date widget, before
    the store selector, the title and every view. *)
Theorem X8_one_date_is_an_index_error (csv : list CsvRow)
    (date_range : list Z) (stores : list string) :
  csv <> [] ->
  (List.length date_range < 2)%nat ->
  exists lo hi,
    default_date_range (load_data csv) = [lo; hi]
    /\ main csv date_range stores
       = ([ st_set_page_config "Maven Roasters Dashboard";
            st_spinner "Loading data...";
            st_sidebar_header "Filters";
            st_sidebar_date_input "Select Date Range" [lo; hi] lo hi ]%string,
          inl IndexError).
Proof.
  intros Hcsv Hlen.
  assert (Hne : load_data csv <> []) by (now rewrite load_data_nil).
  destruct (non_empty_range Hne) as (tmin & tmax & _ & _ & Edef).
  exists (date tmin), (date tmax). split; [exact Edef|].
  now apply main_index_error.
Qed.

Lemma X8_one_date_is_an_index_error_witness :
  exists lo hi,
    default_date_range (load_data Examples.two_rows) = [lo; hi]
    /\ main Examples.two_rows [Examples.d2023_01_01] ["A"]%string
       = ([ st_set_page_config "Maven Roasters Dashboard";
            st_spinner "Loading data...";
            st_sidebar_header "Filters";
            st_sidebar_date_input "Select Date Range" [lo; hi] lo hi ]%string,
          inl IndexError).
Proof.
  apply (@X8_one_date_is_an_index_error Examples.two_rows
           [Examples.d2023_01_01] ["A"]%string).
  - discriminate.
  - simpl. lia.
Defined.

(** X9: whatever metric, chart or data view a run renders belongs to the
    page of its selection: the run had two dates to read, the selection
    was not empty, and the widget is one of the metrics and charts
    computed from the filtered table (never from the whole table). *)
Theorem X9_views_come_from_the_selection (csv : list CsvRow)
    (date_range : list Z) (stores : list string) (w : widget) :
  In w (rendered (main csv date_range stores)) ->
  Spec.shows_data w = true ->
  exists d0 d1 rest,
    date_range = d0 :: d1 :: rest
    /\ filtered_df (load_data csv) d0 d1 stores <> []
    /\ In w (rendered (top_level_metrics
                         (filtered_df (load_data csv) d0 d1 stores))
             ++ rendered (charts
                            (filtered_df (load_data csv) d0 d1 stores))).
Proof.
  intros Hw Hshow.
  destruct (@data_needs_rows csv date_range stores w Hw Hshow)
    as (d0 & d1 & rest & -> & Hfd).
  exists d0, d1, rest. split; [reflexivity|]. split; [exact Hfd|].
  assert (Hne : load_data csv <> []).
  { intros E. apply Hfd. now rewrite E. }
  destruct (@main_filtered csv d0 d1 rest stores Hne) as (lo & hi & _ & E).
  rewrite E in Hw. cbv zeta in Hw. rewrite (empty_false Hfd) in Hw.
  unfold rendered at 1 in Hw. cbn [fst] in Hw.
  apply in_app_or in Hw. destruct Hw as [Hw | Hw].
  - apply preamble_quiet in Hw. congruence.
  - destruct Hw as [<- | Hw]; [discriminate | exact Hw].
Qed.

Lemma X9_views_come_from_the_selection_witness :
  exists d0 d1 rest,
    [Examples.d2023_01_01; Examples.d2023_01_02] = d0 :: d1 :: rest
    /\ filtered_df (load_data Examples.basket) d0 d1 ["A"]%string <> [].
Proof.
  destruct (@X9_views_come_from_the_selection Examples.basket
              [Examples.d2023_01_01; Examples.d2023_01_02] ["A"]%string
              (st_dataframe
                 (filtered_df (load_data Examples.basket)
                    Examples.d2023_01_01 Examples.d2023_01_02 ["A"]%string)))
    as (d0 & d1 & rest & E & Hfd & _).
  - vm_compute. do 20 right. left. reflexivity.
  - reflexivity.
  - now exists d0, d1, rest.
Defined.

(* ===================================================================== *)
(** * More on the grouped views                                           *)
(* ===================================================================== *)



Section GroupCounts.
Context {K : Type} `{KeyOrdLaws K} {R : Type}.
Variable key : R -> K.






End GroupCounts.

Section StoreAndProduct.
Local Open Scope string_scope.



End StoreAndProduct.







(* ===================================================================== *)
(** * Distinct transactions, day by day                                   *)
(* ===================================================================== *)

Section DistinctPerGroup.
Context {K : Type} `{KeyOrdLaws K} {R : Type}.
Variable key : R -> K.
Variable ident : R -> Z.

(** The (group, id) pairs of a grouped table, each once. *)
Local Abbreviation pairs gs :=
  (flat_map (fun g : K * list R =>
               map (pair (fst g)) (unique (map ident (snd g)))) gs).






End DistinctPerGroup.



(* ===================================================================== *)
(** * The order of the rows does not matter                               *)
(* ===================================================================== *)

Section RowOrder.





Context {K : Type} `{KeyOrdLaws K}.



Variable key : Row -> K.





End RowOrder.



(* ===================================================================== *)
(** * Views of a selection                                                *)
(* ===================================================================== *)

(** X16: the views of a selection stay inside it: every row of the daily
    series lies on a day of the selected range, and every row of the
    store view is a selected store. *)
Theorem X16_views_stay_inside_the_selection (df : list Row) (s e : Z)
    (stores : list string) :
  let fd := filtered_df df s e stores in
  (forall m, In m (create_daily_metrics fd) ->
             (s <= date (group_key m) <= e)%Z)
  /\ (forall m, In m (store_metrics fd) -> In (group_key m) stores).
Proof.
  cbv zeta. split; intros m Hm.
  - assert (Hk : In (group_key m)
                    (map group_key
                         (create_daily_metrics (filtered_df df s e stores))))
      by now apply in_map.
    unfold create_daily_metrics in Hk. rewrite agg_keys in Hk by reflexivity.
    apply groupby_keys in Hk. destruct Hk as (r & Hr & <-).
    apply filtered_df_In in Hr. tauto.
  - assert (Hk : In (group_key m)
                    (map group_key
                         (store_metrics (filtered_df df s e stores))))
      by now apply in_map.
    unfold store_metrics in Hk. rewrite agg_keys in Hk by reflexivity.
    apply groupby_keys in Hk. destruct Hk as (r & Hr & <-).
    apply filtered_df_In in Hr. tauto.
Qed.

Lemma X16_views_stay_inside_the_selection_witness :
  exists m,
    In m (store_metrics
            (filtered_df (load_data Examples.two_rows) Examples.d2023_01_01
                         Examples.d2023_01_01 ["B"]%string))
    /\ In (group_key m) ["B"]%string.
Proof.
  assert (Hin : In (nth 0 (store_metrics
                             (filtered_df (load_data Examples.two_rows)
                                Examples.d2023_01_01 Examples.d2023_01_01
                                ["B"]%string))
                        (Examples.blank_metrics ""%string))
                   (store_metrics
                      (filtered_df (load_data Examples.two_rows)
                         Examples.d2023_01_01 Examples.d2023_01_01
                         ["B"]%string)))
    by (apply nth_In; vm_compute; lia).
  eexists. split; [exact Hin|].
  exact (proj2 (X16_views_stay_inside_the_selection
                  (load_data Examples.two_rows) Examples.d2023_01_01
                  Examples.d2023_01_01 ["B"]%string) _ Hin).
Defined.



Lemma day_name_in_week (t : Z) : In (day_name t) day_order.
Proof.
  change (In (day_name t) day_names). unfold day_name.
  apply nth_In. unfold weekday.
  pose proof (Z.mod_pos_bound (date t + 3) 7 eq_refl) as Hb.
  change (List.length day_names) with 7%nat. lia.
Qed.

(** X18: [day_name] only gives names that [day_order] lists, so
    reindexing on [day_order] drops no group: the weekday of every row
    of the table has a value in the day-of-week view. *)
Theorem X18_every_row_has_its_weekday (fd : list Row) (r : Row) :
  In r fd ->
  In (day_name (transaction_date r)) day_order
  /\ exists v,
       In (day_name (transaction_date r), Some v) (daily_patterns fd).
Proof.
  intros Hr. split; [apply day_name_in_week|].
  unfold daily_patterns. rewrite reindex_group_means.
  set (d := day_name (transaction_date r)).
  assert (Hf : In r (filter (fun r0 =>
                 keqb (day_name (transaction_date r0)) d) fd)).
  { apply filter_In. split; [assumption | apply keqb_refl]. }
  destruct (mean (map total_price
                      (filter (fun r0 =>
                         keqb (day_name (transaction_date r0)) d) fd)))
    as [v|] eqn:Em.
  - exists v. apply in_map_iff. exists d. split.
    + now rewrite Em.
    + apply day_name_in_week.
  - exfalso. unfold mean in Em.
    destruct (filter _ fd) as [|x l]; [destruct Hf | discriminate].
Qed.

Lemma X18_every_row_has_its_weekday_witness :
  exists v,
    In (day_name (transaction_date
                    (nth 0 (load_data Examples.two_rows)
                         Examples.blank_row)), Some v)
       (daily_patterns (load_data Examples.two_rows)).
Proof.
  apply (@X18_every_row_has_its_weekday (load_data Examples.two_rows)
           (nth 0 (load_data Examples.two_rows) Examples.blank_row)).
  apply nth_In. vm_compute. lia.
Defined.

Section KpiRelations.
Local Open Scope Qc_scope.



End KpiRelations.



(* ===================================================================== *)
(** * Timestamps with a time of day                                       *)
(* ===================================================================== *)

Section Midnights.
Local Open Scope Z_scope.

Lemma midnight_date_lt (t u : Z) :
  normalize t = t -> normalize u = u -> t < u -> date t < date u.
Proof.
  rewrite !normalize_date. pose proof NS_PER_DAY_pos as HD.
  set (D := NS_PER_DAY) in *. clearbody D. intros Et Eu Hlt. nia.
Qed.

End Midnights.

(** X20: [create_daily_metrics] groups by the timestamp as loaded, not
    by its day.  When every transaction_date of the table is a midnight
    (a date-only column), the daily series has one row per calendar day,
    the days strictly ascending. *)
Theorem X20_one_daily_row_per_day (df : list Row) :
  (forall r, In r df -> normalize (transaction_date r) = transaction_date r) ->
  StronglySorted Z.lt
    (map (fun m => date (group_key m)) (create_daily_metrics df)).
Proof.
  intros Hmid.
  assert (Hkeys : forall m, In m (create_daily_metrics df) ->
                            normalize (group_key m) = group_key m).
  { intros m Hm.
    assert (Hk : In (group_key m) (map group_key (create_daily_metrics df)))
      by now apply in_map.
    unfold create_daily_metrics in Hk. rewrite agg_keys in Hk by reflexivity.
    apply groupby_keys in Hk. destruct Hk as (r & Hr & <-). now apply Hmid. }
  assert (Hs : StronglySorted Z.lt (map group_key (create_daily_metrics df))).
  { unfold create_daily_metrics. rewrite agg_keys by reflexivity.
    exact (groupby_sorted transaction_date df). }
  induction (create_daily_metrics df) as [|m l IH]; [constructor|].
  cbn [map] in *. inversion Hs as [|? ? Hs' Hall]; subst.
  constructor.
  - apply IH; [|assumption]. intros m' Hm'. apply Hkeys. now right.
  - rewrite Forall_map in *. rewrite Forall_forall in *.
    intros m' Hm'. apply midnight_date_lt.
    + apply Hkeys. now left.
    + apply Hkeys. now right.
    + now apply Hall.
Qed.

Lemma X20_one_daily_row_per_day_witness :
  StronglySorted Z.lt
    (map (fun m => date (group_key m))
         (create_daily_metrics (load_data Examples.basket))).
Proof.
  apply (@X20_one_daily_row_per_day (load_data Examples.basket)).
  intros r Hr. simpl in Hr.
  destruct Hr as [<- | [<- | [<- | []]]]; vm_compute; reflexivity.
Defined.

(** With times of day in the column the same day can come twice: two
    sales at 09:00 and 17:00 of one day make two daily rows, while the
    filter, which cuts to the day, keeps both for that day. *)
Example two_times_of_a_day :
  map (fun m => date (group_key m))
      (create_daily_metrics (load_data Further.morning_and_evening))
  = [Examples.d2023_01_01; Examples.d2023_01_01]
  /\ List.length (filtered_df (load_data Further.morning_and_evening)
                    Examples.d2023_01_01 Examples.d2023_01_01 ["A"]%string)
     = 2%nat.
Proof. split; vm_compute; reflexivity. Qed.
